(** * pense: elastic-net solvers (DAL, IRWEN driver, coordinate descent)

    A shallow embedding of [src/src/IRWEN.cpp] (the IRWEN driver and the
    DAL elastic-net solver [ENDal]) and of the coordinate-descent
    optimizer [CDPense] (coordinate_descent.hpp).

    Conventions of the embedding.
    - A C++ [double] is a real number of [R]: no rounding, no NaN and no
      infinities.  Comparisons are the decidable order of [R].
    - An [int] is an integer of [Z]; a dimension is a [nat].
    - An Armadillo [vec] is a [list R]; an Armadillo [mat] is a record of
      its two dimensions and its column-major memory.
    - Objects are records and member functions pass the object explicitly;
      a member function that writes through pointer arguments returns the
      new contents of those buffers next to the new object. *)

From Stdlib Require Import Reals Lra Lia ZArith String QArith Qreals Qabs.
From stdpp Require Import base decidable list strings gmap.

Local Open Scope R_scope.

(** ** Numbers *)

#[global] Instance Rlt_decision (x y : R) : Decision (x < y) := Rlt_dec x y.
#[global] Instance Rle_decision (x y : R) : Decision (x <= y) := Rle_dec x y.
#[global] Instance Rgt_decision (x y : R) : Decision (x > y) := Rgt_dec x y.
#[global] Instance Req_decision : EqDecision R := Req_dec_T.
#[global] Instance R_inhabited : Inhabited R := populate 0.

(** [sign z] of the documentation of [softThreshold]. *)
Definition sign (z : R) : R :=
  if decide (0 < z) then 1 else if decide (z < 0) then -1 else 0.

(** ** Vectors *)

Abbreviation vec := (list R).

(** [accu(v)] *)
Definition accu (v : vec) : R := foldr Rplus 0 v.

(** [v[i]], 0 outside the vector. *)
Definition vnth (v : vec) (i : nat) : R := nth i v 0.

(** [sum_{i < n} f i] *)
Definition sum_n (n : nat) (f : nat -> R) : R := accu (map f (seq 0 n)).

(** [mean(v)]: the sum over the number of elements. *)
Definition mean (v : vec) : R := accu v / INR (length v).

(** [dot(v, w)] *)
Definition dot (v w : vec) : R := accu (zip_with Rmult v w).

(** [v % w], the elementwise product. *)
Definition schur (v w : vec) : vec := zip_with Rmult v w.

Definition vadd (v w : vec) : vec := zip_with Rplus v w.
Definition vsub (v w : vec) : vec := zip_with Rminus v w.
Definition vscale (c : R) (v : vec) : vec := map (Rmult c) v.
Definition vadd_scalar (v : vec) (c : R) : vec := map (fun x => x + c) v.
Definition vsub_scalar (v : vec) (c : R) : vec := map (fun x => x - c) v.
Definition vneg (v : vec) : vec := map Ropp v.
Definition vzeros (n : nat) : vec := replicate n 0.
Definition vabs (v : vec) : vec := map Rabs v.
Definition vsqrt (v : vec) : vec := map sqrt v.

(** [max(v)]; Armadillo rejects the empty vector, which no caller passes. *)
Definition vmax (v : vec) : R :=
  match v with
  | [] => 0
  | x :: v' => foldl Rmax x v'
  end.

(** [norm(v, 1)] and [norm(v, 2)] *)
Definition norm1 (v : vec) : R := accu (vabs v).
Definition norm2 (v : vec) : R := sqrt (dot v v).

(** [find(v)]: the indices of the non-zero elements, increasing. *)
Fixpoint find_from (i : nat) (v : vec) : list nat :=
  match v with
  | [] => []
  | x :: v' => if decide (x = 0) then find_from (S i) v' else i :: find_from (S i) v'
  end.
Definition find (v : vec) : list nat := find_from 0 v.

(** ** Matrices *)

Record mat := mkmat { n_rows : nat; n_cols : nat; mem : list R }.

(** Element [(i, j)] of the column-major memory. *)
Definition at_ (m : mat) (i j : nat) : R := nth (i + j * n_rows m) (mem m) 0.

Definition mat_init (r c : nat) (f : nat -> nat -> R) : mat :=
  mkmat r c (flat_map (fun j => map (fun i => f i j) (seq 0 r)) (seq 0 c)).

Definition zeros (r c : nat) : mat := mat_init r c (fun _ _ => 0).

(** [m * v] *)
Definition mat_vec (m : mat) (v : vec) : vec :=
  map (fun i => sum_n (n_cols m) (fun j => at_ m i j * vnth v j)) (seq 0 (n_rows m)).

(** [m.t() * v] *)
Definition matT_vec (m : mat) (v : vec) : vec :=
  map (fun j => sum_n (n_rows m) (fun i => at_ m i j * vnth v i)) (seq 0 (n_cols m)).

(** [m.rows(keep)] *)
Definition rows (m : mat) (keep : list nat) : mat :=
  mat_init (length keep) (n_cols m) (fun r j => at_ m (nth r keep 0%nat) j).

(** [m.t() * m] *)
Definition gram (m : mat) : mat :=
  mat_init (n_cols m) (n_cols m)
           (fun i k => sum_n (n_rows m) (fun r => at_ m r i * at_ m r k)).

(** [v * w.t()] *)
Definition outer (v w : vec) : mat :=
  mat_init (length v) (length w) (fun i j => vnth v i * vnth w j).

(** [m.each_row() % w.t()] *)
Definition each_row_schur (m : mat) (w : vec) : mat :=
  mat_init (n_rows m) (n_cols m) (fun i j => at_ m i j * vnth w j).

Definition mscale (c : R) (m : mat) : mat :=
  mkmat (n_rows m) (n_cols m) (map (Rmult c) (mem m)).
Definition madd_scalar (m : mat) (c : R) : mat :=
  mkmat (n_rows m) (n_cols m) (map (fun x => x + c) (mem m)).
Definition madd (m1 m2 : mat) : mat :=
  mkmat (n_rows m1) (n_cols m1) (zip_with Rplus (mem m1) (mem m2)).

(** [m.diag() += c] *)
Definition diag_add (m : mat) (c : R) : mat :=
  mat_init (n_rows m) (n_cols m)
           (fun i j => if decide (i = j) then at_ m i j + c else at_ m i j).

(** [m.shed_row(0)] *)
Definition shed_row0 (m : mat) : mat :=
  mat_init (pred (n_rows m)) (n_cols m) (fun i j => at_ m (S i) j).

(** ** Static helpers of ENDal.cpp *)

Definition softThreshold (z gamma : R) : R :=
  if decide (Rabs z <= gamma) then 0
  else if decide (z < 0) then z + gamma
  else z - gamma.

Definition vecSoftThreshold (z : vec) (gamma : R) : vec :=
  map (fun el => softThreshold el gamma) z.

(** [zsoft] is resized to [z1] and filled from [z1] and [z2]. *)
Definition vecSoftThresholdInplace (z1 : vec) (c : R) (z2 : vec) (gamma : R) : vec :=
  imap (fun i x1 => softThreshold (x1 + c * vnth z2 i) gamma) z1.

Definition lossDual (a y : vec) (aNeg : bool) : R :=
  if aNeg then 0.5 * dot a a - dot a y else 0.5 * dot a a + dot a y.

Definition squaredL2Norm (x : vec) : R :=
  let tmp := norm2 x in tmp * tmp.

(** ** Collaborators declared outside the translated files *)

(** [Options]: a lookup from option names to values, read with a default
    ([options.get(name, default)]). *)
Inductive OptVal := OptInt (z : Z) | OptDouble (r : R) | OptBool (b : bool).
Definition Options := gmap string OptVal.

Definition get_int (options : Options) (name : string) (def : Z) : Z :=
  match options !! name with Some (OptInt z) => z | _ => def end.
Definition get_double (options : Options) (name : string) (def : R) : R :=
  match options !! name with Some (OptDouble r) => r | _ => def end.
Definition get_bool (options : Options) (name : string) (def : bool) : bool :=
  match options !! name with Some (OptBool b) => b | _ => def end.

(** [Data]: the response and the transposed design matrix, stored column
    by column ([numVar] values for each observation, the first one being
    the intercept column). *)
Record Data := mkData {
  numObs : nat;
  numVar : nat;
  getYConst : list R;
  getXtrConst : list R
}.

(** A write of [new] through a pointer into [buf], [off] elements in. *)
Definition store (off : nat) (new buf : list R) : list R :=
  take off buf ++ new ++ drop (off + length new) buf.

(** ** ENDal.cpp: the DAL elastic-net solver *)

Module ENDal.

Definition DEFAULT_OPT_MAXIT : Z := 100.
Definition DEFAULT_OPT_EPS : R := 1 / 100000.
Definition DEFAULT_OPT_WARM_START : bool := true.
Definition DEFAULT_OPT_ETA_START : R := -1.
Definition DEFAULT_OPT_ETA_START_NUMERATOR : R := 0.01.
Definition DEFAULT_OPT_ETA_MULTIPLIER : R := 2.
Definition DEFAULT_OPT_USE_BUFFER : bool := true.

Definition LINESEARCH_STEPSIZE_MULTIPLIER : R := 0.8.
Definition LINESEARCH_STEP_CONDITION : R := 0.3.
Definition LINESEARCH_MAX_STEP : nat := 20.

(** The members of the class.  [y] and [Xtr] are pointers in the source;
    the record holds what they point to, and a null pointer is the empty
    object. *)
Record t := mk {
  (* ElasticNet *)
  intercept : bool;
  status : Z;
  statusMessage : string;
  (* options *)
  maxIt : Z;
  eps : R;
  warmStart : bool;
  etaStart : R;
  etaStartNumerator : R;
  etaMultiplier : R;
  useHessBuffer : bool;
  (* installed data *)
  bufferSizeNobs : nat;
  bufferSizeNvar : nat;
  y : vec;
  Xtr : mat;
  (* weights of the current solve *)
  useWeights : bool;
  sqrtWeights : vec;
  sqrtWeightsOuter : mat;
  (* penalty *)
  lambda : R;
  alpha : R;
  nLambda : R;
  (* eta[0], eta[1] and the dual vector *)
  eta_0 : R;
  eta_1 : R;
  a : vec;
  (* Hessian buffer *)
  hessBuff : mat;
  hessBuffKeep : list nat
}.

(** Assignment to one member. *)
Definition set_status (v : Z) (this : t) : t :=
  mk (intercept this) v (statusMessage this) (maxIt this) (eps this) (warmStart this)
     (etaStart this) (etaStartNumerator this) (etaMultiplier this) (useHessBuffer this)
     (bufferSizeNobs this) (bufferSizeNvar this) (y this) (Xtr this) (useWeights this)
     (sqrtWeights this) (sqrtWeightsOuter this) (lambda this) (alpha this) (nLambda this)
     (eta_0 this) (eta_1 this) (a this) (hessBuff this) (hessBuffKeep this).
Definition set_statusMessage (v : string) (this : t) : t :=
  mk (intercept this) (status this) v (maxIt this) (eps this) (warmStart this) (etaStart this)
     (etaStartNumerator this) (etaMultiplier this) (useHessBuffer this) (bufferSizeNobs this)
     (bufferSizeNvar this) (y this) (Xtr this) (useWeights this) (sqrtWeights this)
     (sqrtWeightsOuter this) (lambda this) (alpha this) (nLambda this) (eta_0 this) (eta_1 this)
     (a this) (hessBuff this) (hessBuffKeep this).
Definition set_maxIt (v : Z) (this : t) : t :=
  mk (intercept this) (status this) (statusMessage this) v (eps this) (warmStart this)
     (etaStart this) (etaStartNumerator this) (etaMultiplier this) (useHessBuffer this)
     (bufferSizeNobs this) (bufferSizeNvar this) (y this) (Xtr this) (useWeights this)
     (sqrtWeights this) (sqrtWeightsOuter this) (lambda this) (alpha this) (nLambda this)
     (eta_0 this) (eta_1 this) (a this) (hessBuff this) (hessBuffKeep this).
Definition set_eps (v : R) (this : t) : t :=
  mk (intercept this) (status this) (statusMessage this) (maxIt this) v (warmStart this)
     (etaStart this) (etaStartNumerator this) (etaMultiplier this) (useHessBuffer this)
     (bufferSizeNobs this) (bufferSizeNvar this) (y this) (Xtr this) (useWeights this)
     (sqrtWeights this) (sqrtWeightsOuter this) (lambda this) (alpha this) (nLambda this)
     (eta_0 this) (eta_1 this) (a this) (hessBuff this) (hessBuffKeep this).
Definition set_warmStart (v : bool) (this : t) : t :=
  mk (intercept this) (status this) (statusMessage this) (maxIt this) (eps this) v
     (etaStart this) (etaStartNumerator this) (etaMultiplier this) (useHessBuffer this)
     (bufferSizeNobs this) (bufferSizeNvar this) (y this) (Xtr this) (useWeights this)
     (sqrtWeights this) (sqrtWeightsOuter this) (lambda this) (alpha this) (nLambda this)
     (eta_0 this) (eta_1 this) (a this) (hessBuff this) (hessBuffKeep this).
Definition set_etaStart (v : R) (this : t) : t :=
  mk (intercept this) (status this) (statusMessage this) (maxIt this) (eps this) (warmStart this)
     v (etaStartNumerator this) (etaMultiplier this) (useHessBuffer this) (bufferSizeNobs this)
     (bufferSizeNvar this) (y this) (Xtr this) (useWeights this) (sqrtWeights this)
     (sqrtWeightsOuter this) (lambda this) (alpha this) (nLambda this) (eta_0 this) (eta_1 this)
     (a this) (hessBuff this) (hessBuffKeep this).
Definition set_etaStartNumerator (v : R) (this : t) : t :=
  mk (intercept this) (status this) (statusMessage this) (maxIt this) (eps this) (warmStart this)
     (etaStart this) v (etaMultiplier this) (useHessBuffer this) (bufferSizeNobs this)
     (bufferSizeNvar this) (y this) (Xtr this) (useWeights this) (sqrtWeights this)
     (sqrtWeightsOuter this) (lambda this) (alpha this) (nLambda this) (eta_0 this) (eta_1 this)
     (a this) (hessBuff this) (hessBuffKeep this).
Definition set_etaMultiplier (v : R) (this : t) : t :=
  mk (intercept this) (status this) (statusMessage this) (maxIt this) (eps this) (warmStart this)
     (etaStart this) (etaStartNumerator this) v (useHessBuffer this) (bufferSizeNobs this)
     (bufferSizeNvar this) (y this) (Xtr this) (useWeights this) (sqrtWeights this)
     (sqrtWeightsOuter this) (lambda this) (alpha this) (nLambda this) (eta_0 this) (eta_1 this)
     (a this) (hessBuff this) (hessBuffKeep this).
Definition set_useHessBuffer (v : bool) (this : t) : t :=
  mk (intercept this) (status this) (statusMessage this) (maxIt this) (eps this) (warmStart this)
     (etaStart this) (etaStartNumerator this) (etaMultiplier this) v (bufferSizeNobs this)
     (bufferSizeNvar this) (y this) (Xtr this) (useWeights this) (sqrtWeights this)
     (sqrtWeightsOuter this) (lambda this) (alpha this) (nLambda this) (eta_0 this) (eta_1 this)
     (a this) (hessBuff this) (hessBuffKeep this).
Definition set_bufferSizeNobs (v : nat) (this : t) : t :=
  mk (intercept this) (status this) (statusMessage this) (maxIt this) (eps this) (warmStart this)
     (etaStart this) (etaStartNumerator this) (etaMultiplier this) (useHessBuffer this) v
     (bufferSizeNvar this) (y this) (Xtr this) (useWeights this) (sqrtWeights this)
     (sqrtWeightsOuter this) (lambda this) (alpha this) (nLambda this) (eta_0 this) (eta_1 this)
     (a this) (hessBuff this) (hessBuffKeep this).
Definition set_bufferSizeNvar (v : nat) (this : t) : t :=
  mk (intercept this) (status this) (statusMessage this) (maxIt this) (eps this) (warmStart this)
     (etaStart this) (etaStartNumerator this) (etaMultiplier this) (useHessBuffer this)
     (bufferSizeNobs this) v (y this) (Xtr this) (useWeights this) (sqrtWeights this)
     (sqrtWeightsOuter this) (lambda this) (alpha this) (nLambda this) (eta_0 this) (eta_1 this)
     (a this) (hessBuff this) (hessBuffKeep this).
Definition set_y (v : vec) (this : t) : t :=
  mk (intercept this) (status this) (statusMessage this) (maxIt this) (eps this) (warmStart this)
     (etaStart this) (etaStartNumerator this) (etaMultiplier this) (useHessBuffer this)
     (bufferSizeNobs this) (bufferSizeNvar this) v (Xtr this) (useWeights this)
     (sqrtWeights this) (sqrtWeightsOuter this) (lambda this) (alpha this) (nLambda this)
     (eta_0 this) (eta_1 this) (a this) (hessBuff this) (hessBuffKeep this).
Definition set_Xtr (v : mat) (this : t) : t :=
  mk (intercept this) (status this) (statusMessage this) (maxIt this) (eps this) (warmStart this)
     (etaStart this) (etaStartNumerator this) (etaMultiplier this) (useHessBuffer this)
     (bufferSizeNobs this) (bufferSizeNvar this) (y this) v (useWeights this) (sqrtWeights this)
     (sqrtWeightsOuter this) (lambda this) (alpha this) (nLambda this) (eta_0 this) (eta_1 this)
     (a this) (hessBuff this) (hessBuffKeep this).
Definition set_useWeights (v : bool) (this : t) : t :=
  mk (intercept this) (status this) (statusMessage this) (maxIt this) (eps this) (warmStart this)
     (etaStart this) (etaStartNumerator this) (etaMultiplier this) (useHessBuffer this)
     (bufferSizeNobs this) (bufferSizeNvar this) (y this) (Xtr this) v (sqrtWeights this)
     (sqrtWeightsOuter this) (lambda this) (alpha this) (nLambda this) (eta_0 this) (eta_1 this)
     (a this) (hessBuff this) (hessBuffKeep this).
Definition set_sqrtWeights (v : vec) (this : t) : t :=
  mk (intercept this) (status this) (statusMessage this) (maxIt this) (eps this) (warmStart this)
     (etaStart this) (etaStartNumerator this) (etaMultiplier this) (useHessBuffer this)
     (bufferSizeNobs this) (bufferSizeNvar this) (y this) (Xtr this) (useWeights this) v
     (sqrtWeightsOuter this) (lambda this) (alpha this) (nLambda this) (eta_0 this) (eta_1 this)
     (a this) (hessBuff this) (hessBuffKeep this).
Definition set_sqrtWeightsOuter (v : mat) (this : t) : t :=
  mk (intercept this) (status this) (statusMessage this) (maxIt this) (eps this) (warmStart this)
     (etaStart this) (etaStartNumerator this) (etaMultiplier this) (useHessBuffer this)
     (bufferSizeNobs this) (bufferSizeNvar this) (y this) (Xtr this) (useWeights this)
     (sqrtWeights this) v (lambda this) (alpha this) (nLambda this) (eta_0 this) (eta_1 this)
     (a this) (hessBuff this) (hessBuffKeep this).
Definition set_lambda (v : R) (this : t) : t :=
  mk (intercept this) (status this) (statusMessage this) (maxIt this) (eps this) (warmStart this)
     (etaStart this) (etaStartNumerator this) (etaMultiplier this) (useHessBuffer this)
     (bufferSizeNobs this) (bufferSizeNvar this) (y this) (Xtr this) (useWeights this)
     (sqrtWeights this) (sqrtWeightsOuter this) v (alpha this) (nLambda this) (eta_0 this)
     (eta_1 this) (a this) (hessBuff this) (hessBuffKeep this).
Definition set_alpha (v : R) (this : t) : t :=
  mk (intercept this) (status this) (statusMessage this) (maxIt this) (eps this) (warmStart this)
     (etaStart this) (etaStartNumerator this) (etaMultiplier this) (useHessBuffer this)
     (bufferSizeNobs this) (bufferSizeNvar this) (y this) (Xtr this) (useWeights this)
     (sqrtWeights this) (sqrtWeightsOuter this) (lambda this) v (nLambda this) (eta_0 this)
     (eta_1 this) (a this) (hessBuff this) (hessBuffKeep this).
Definition set_nLambda (v : R) (this : t) : t :=
  mk (intercept this) (status this) (statusMessage this) (maxIt this) (eps this) (warmStart this)
     (etaStart this) (etaStartNumerator this) (etaMultiplier this) (useHessBuffer this)
     (bufferSizeNobs this) (bufferSizeNvar this) (y this) (Xtr this) (useWeights this)
     (sqrtWeights this) (sqrtWeightsOuter this) (lambda this) (alpha this) v (eta_0 this)
     (eta_1 this) (a this) (hessBuff this) (hessBuffKeep this).
Definition set_eta_0 (v : R) (this : t) : t :=
  mk (intercept this) (status this) (statusMessage this) (maxIt this) (eps this) (warmStart this)
     (etaStart this) (etaStartNumerator this) (etaMultiplier this) (useHessBuffer this)
     (bufferSizeNobs this) (bufferSizeNvar this) (y this) (Xtr this) (useWeights this)
     (sqrtWeights this) (sqrtWeightsOuter this) (lambda this) (alpha this) (nLambda this) v
     (eta_1 this) (a this) (hessBuff this) (hessBuffKeep this).
Definition set_eta_1 (v : R) (this : t) : t :=
  mk (intercept this) (status this) (statusMessage this) (maxIt this) (eps this) (warmStart this)
     (etaStart this) (etaStartNumerator this) (etaMultiplier this) (useHessBuffer this)
     (bufferSizeNobs this) (bufferSizeNvar this) (y this) (Xtr this) (useWeights this)
     (sqrtWeights this) (sqrtWeightsOuter this) (lambda this) (alpha this) (nLambda this)
     (eta_0 this) v (a this) (hessBuff this) (hessBuffKeep this).
Definition set_a (v : vec) (this : t) : t :=
  mk (intercept this) (status this) (statusMessage this) (maxIt this) (eps this) (warmStart this)
     (etaStart this) (etaStartNumerator this) (etaMultiplier this) (useHessBuffer this)
     (bufferSizeNobs this) (bufferSizeNvar this) (y this) (Xtr this) (useWeights this)
     (sqrtWeights this) (sqrtWeightsOuter this) (lambda this) (alpha this) (nLambda this)
     (eta_0 this) (eta_1 this) v (hessBuff this) (hessBuffKeep this).
Definition set_hessBuff (v : mat) (this : t) : t :=
  mk (intercept this) (status this) (statusMessage this) (maxIt this) (eps this) (warmStart this)
     (etaStart this) (etaStartNumerator this) (etaMultiplier this) (useHessBuffer this)
     (bufferSizeNobs this) (bufferSizeNvar this) (y this) (Xtr this) (useWeights this)
     (sqrtWeights this) (sqrtWeightsOuter this) (lambda this) (alpha this) (nLambda this)
     (eta_0 this) (eta_1 this) (a this) v (hessBuffKeep this).
Definition set_hessBuffKeep (v : list nat) (this : t) : t :=
  mk (intercept this) (status this) (statusMessage this) (maxIt this) (eps this) (warmStart this)
     (etaStart this) (etaStartNumerator this) (etaMultiplier this) (useHessBuffer this)
     (bufferSizeNobs this) (bufferSizeNvar this) (y this) (Xtr this) (useWeights this)
     (sqrtWeights this) (sqrtWeightsOuter this) (lambda this) (alpha this) (nLambda this)
     (eta_0 this) (eta_1 this) (a this) (hessBuff this) v.

(** [ENDal::ENDal(intercept)]; members without an initializer are zero. *)
Definition new (intercept : bool) : t :=
  mk intercept 0 ""
     DEFAULT_OPT_MAXIT DEFAULT_OPT_EPS DEFAULT_OPT_WARM_START DEFAULT_OPT_ETA_START
     DEFAULT_OPT_ETA_START_NUMERATOR DEFAULT_OPT_ETA_MULTIPLIER DEFAULT_OPT_USE_BUFFER
     0 0 [] (mkmat 0 0 []) false [1] (mkmat 0 0 [])
     0 0 0 0 0 [] (mkmat 0 0 []) [].

Definition setOptions (options : Options) (this : t) : t :=
  let this := set_maxIt (get_int options "maxit" (maxIt this)) this in
  let this := set_eps (get_double options "eps" (eps this)) this in
  let this := set_warmStart (get_bool options "warmStart" (warmStart this)) this in
  let this := set_etaStart (get_double options "etaStart" (etaStart this)) this in
  let this := set_etaStartNumerator
                (get_double options "etaStartNumerator" (etaStartNumerator this)) this in
  let this := set_etaMultiplier (get_double options "etaMultiplier" (etaMultiplier this)) this in
  set_useHessBuffer (get_bool options "useBuffer" (useHessBuffer this)) this.

(** [ENDal::ENDal(intercept, options)] *)
Definition new_with (intercept : bool) (options : Options) : t :=
  setOptions options (new intercept).

Definition setLambdas (lambda1 lambda2 : R) (this : t) : t :=
  let this := set_lambda (lambda2 + lambda1) this in
  let this := set_alpha (lambda1 / (lambda2 + lambda1)) this in
  if decide (lambda2 = 0 /\ lambda1 = 0) then set_alpha 0 this else this.

Definition setAlphaLambda (alpha lambda : R) (this : t) : t :=
  set_lambda lambda (set_alpha alpha this).

Definition fullObjectiveFun (this : t) (icpt : R) (beta : vec) : R :=
  let objf := nLambda this * (0.5 * (1 - alpha this) * squaredL2Norm beta
                              + alpha this * norm1 beta) in
  if intercept this then
    if useWeights this then
      objf + 0.5 * squaredL2Norm
                     (vsub (vadd (matT_vec (Xtr this) beta) (vscale icpt (sqrtWeights this)))
                           (y this))
    else
      objf + 0.5 * squaredL2Norm (vsub (vadd_scalar (matT_vec (Xtr this) beta) icpt) (y this))
  else
    objf + 0.5 * squaredL2Norm (vsub (matT_vec (Xtr this) beta) (y this)).

Definition setData (data : Data) (this : t) : t :=
  let this := set_bufferSizeNvar (numVar data) this in
  let this :=
    if decide (0 < numObs data \/ 0 < numVar data)%nat then
      let this := set_y (take (numObs data) (getYConst data)) this in
      let X := mkmat (numVar data) (numObs data)
                     (take (numVar data * numObs data) (getXtrConst data)) in
      if decide (0 < numVar data)%nat then set_Xtr (shed_row0 X) this else set_Xtr X this
    else
      set_Xtr (mkmat 0 0 []) (set_y [] this) in
  let this :=
    if decide (numObs data <> bufferSizeNobs this) then
      set_bufferSizeNobs (numObs data) (set_a (vneg (y this)) this)
    else this in
  if useHessBuffer this then
    set_hessBuff (zeros (bufferSizeNobs this) (bufferSizeNobs this)) (set_hessBuffKeep [] this)
  else this.

(** [any(keep - hessBuffKeep)] on vectors of 64-bit unsigned indices. *)
Definition uword_sub (k k' : nat) : Z := ((Z.of_nat k - Z.of_nat k') mod 2 ^ 64)%Z.
Definition any_diff (keep key : list nat) : bool :=
  existsb (fun d => negb (d =? 0)%Z) (zip_with uword_sub keep key).

(** The matrix the buffer stands for: [Xtr->rows(keep).t() * Xtr->rows(keep)]. *)
Definition hess_of (X : mat) (keep : list nat) : mat := gram (rows X keep).

(** Returns the buffer (a reference to it in the source) and the object. *)
Definition getHessBuff (keep : list nat) (this : t) : mat * t :=
  if bool_decide (length keep <> length (hessBuffKeep this))
     || any_diff keep (hessBuffKeep this) then
    let this := set_hessBuff (hess_of (Xtr this) keep) this in
    let this := set_hessBuffKeep keep this in
    (hessBuff this, this)
  else (hessBuff this, this).

Definition evalPhiGrad (this : t) (a beta : vec) (icpt multFact : R) : vec :=
  let grad := vadd (vsub a (y this)) (vscale multFact (matT_vec (Xtr this) beta)) in
  match intercept this, useWeights this with
  | true, false => vadd_scalar grad icpt
  | true, true => vadd grad (vscale icpt (sqrtWeights this))
  | false, _ => grad
  end.

Definition evalPhiHess (this : t) (a beta : vec) (icpt multFact : R) : mat * t :=
  let keep := find beta in
  let '(hess, this) :=
    if useHessBuffer this then
      let '(buff, this) := getHessBuff keep this in
      (mscale (eta_0 this * multFact) buff, this)
    else
      (mscale (eta_0 this * multFact) (hess_of (Xtr this) keep), this) in
  let hess := diag_add hess 1 in
  match intercept this, useWeights this with
  | true, false => (madd_scalar hess (eta_1 this), this)
  | true, true => (madd hess (mscale (eta_1 this) (sqrtWeightsOuter this)), this)
  | false, _ => (hess, this)
  end.

(** The block that both loops of [minimizePhi] run on a candidate dual
    vector: the soft-thresholded [beta], the value of phi and, with an
    intercept, the new intercept.  Returns [(beta, intercept, phi)]. *)
Definition phiAt (this : t) (betaOrig : vec) (interceptOrig cutoff multFact : R)
    (candA Xtra : vec) (icpt : R) : vec * R * R :=
  let beta := vecSoftThresholdInplace betaOrig (eta_0 this) Xtra cutoff in
  let phiVal := lossDual candA (y this) true
                + (0.5 / eta_0 this) * multFact * squaredL2Norm beta in
  if intercept this then
    let icpt := interceptOrig
                + eta_1 this * (if useWeights this then accu (schur (sqrtWeights this) candA)
                                else accu candA) in
    (beta, icpt, phiVal + (0.5 / eta_1 this) * icpt * icpt)
  else (beta, icpt, phiVal).

(** The local variables of [minimizePhi] that live across Newton steps. *)
Record phi_locals := mkPhi {
  p_iter : Z;
  p_stepSize : R;
  p_candA : vec;
  p_Xtra : vec;
  p_beta : vec;
  p_icpt : R
}.

(** The backtracking line search, [n] attempts left
    ([while (++lineSearchIter <= LINESEARCH_MAX_STEP)]). *)
Fixpoint lineSearch (n : nat) (this : t) (betaOrig : vec)
    (interceptOrig cutoff multFact phiVal decr : R) (stepDir XtrStepDir : vec)
    (l : phi_locals) : phi_locals :=
  match n with
  | O => l
  | S n' =>
    let '(beta, icpt, phiValStep) :=
      phiAt this betaOrig interceptOrig cutoff multFact (p_candA l) (p_Xtra l) (p_icpt l) in
    if decide (phiValStep < phiVal - LINESEARCH_STEP_CONDITION * p_stepSize l * decr) then
      mkPhi (p_iter l) (p_stepSize l) (p_candA l) (p_Xtra l) beta icpt
    else
      let stepSizePrev := p_stepSize l in
      let stepSize := p_stepSize l * LINESEARCH_STEPSIZE_MULTIPLIER in
      let candA := vsub (p_candA l) (vscale (stepSize - stepSizePrev) stepDir) in
      let Xtra := vsub (p_Xtra l) (vscale (stepSize - stepSizePrev) XtrStepDir) in
      lineSearch n' this betaOrig interceptOrig cutoff multFact phiVal decr stepDir XtrStepDir
                 (mkPhi (p_iter l) stepSize candA Xtra beta icpt)
  end.

Section Solver.

(** Armadillo's [solve(A, b, solve_opts::fast + solve_opts::no_approx)]. *)
Variable solve : mat -> vec -> vec.

(** The Newton loop of [minimizePhi]; [None] when [fuel] passes do not
    reach a [break]. *)
Fixpoint minimizePhi_loop (fuel : nat) (this : t) (betaOrig : vec)
    (interceptOrig cutoff multFact : R) (l : phi_locals) : option (t * phi_locals) :=
  match fuel with
  | O => None
  | S fuel' =>
    let '(beta, icpt, phiVal) :=
      phiAt this betaOrig interceptOrig cutoff multFact (p_candA l) (p_Xtra l) (p_icpt l) in
    let phiGradient := evalPhiGrad this (p_candA l) beta icpt multFact in
    let iter := (p_iter l + 1)%Z in
    if decide (iter > maxIt this)%Z then
      Some (this, mkPhi iter (p_stepSize l) (p_candA l) (p_Xtra l) beta icpt)
    else
      let normGradient := squaredL2Norm phiGradient in
      let threshold := (1 / eta_0 this) * squaredL2Norm (vsub betaOrig beta) in
      let threshold :=
        if intercept this then
          let normDiffInt := interceptOrig - icpt in
          threshold + (1 / eta_1 this) * normDiffInt * normDiffInt
        else threshold in
      let threshold := if decide (threshold < eps this) then 0.5 * eps this else threshold in
      if decide ((iter > 1)%Z /\ normGradient < threshold) then
        Some (this, mkPhi iter (p_stepSize l) (p_candA l) (p_Xtra l) beta icpt)
      else
        let '(phiHessian, this) := evalPhiHess this (p_candA l) beta icpt multFact in
        let stepDir := solve phiHessian phiGradient in
        let decr := dot stepDir phiGradient in
        let XtrStepDir := mat_vec (Xtr this) stepDir in
        let candA := vsub (p_candA l) stepDir in
        let Xtra := vsub (p_Xtra l) XtrStepDir in
        minimizePhi_loop fuel' this betaOrig interceptOrig cutoff multFact
          (lineSearch LINESEARCH_MAX_STEP this betaOrig interceptOrig cutoff multFact
                      phiVal decr stepDir XtrStepDir (mkPhi iter 1 candA Xtra beta icpt))
  end.

(** Returns the object, [beta], [intercept] and the returned flag. *)
Definition minimizePhi (this : t) (beta : vec) (icpt : R) : option (t * vec * R * bool) :=
  let cutoff := nLambda this * eta_0 this * alpha this in
  let multFact := 1 / (1 + nLambda this * eta_0 this * (1 - alpha this)) in
  '(this, l) ← minimizePhi_loop (S (Z.to_nat (maxIt this))) this beta icpt cutoff multFact
                  (mkPhi 0 1 (a this) (mat_vec (Xtr this) (a this)) beta icpt);
  Some (set_a (p_candA l) this, vscale multFact (p_beta l), p_icpt l,
        bool_decide (p_iter l <= maxIt this)%Z).

(** The local variables of [dal] that live across outer iterations. *)
Record dal_locals := mkDal {
  d_iter : Z;
  d_dualFunVal : R;
  d_aL1Prev : R;
  d_beta : vec;
  d_icpt : R
}.

(** What the [DEBUG] build prints in every outer iteration. *)
Record DebugLine := mkDebug {
  dbg_iter : Z;
  dbg_fval : R;
  dbg_dval : R;
  dbg_rdg : R;
  dbg_eta : R;
  dbg_eta_int : R
}.

(** The dual objective of an outer iteration, before the guard. *)
Definition dualValue (this : t) (la updateDenomMult : R) : R :=
  let dualVec :=
    if intercept this then
      if useWeights this then
        vsub (a this) (vscale (mean (schur (sqrtWeights this) (a this))) (sqrtWeights this))
      else vsub_scalar (a this) (mean (a this))
    else a this in
  let tmpInnerProd := mat_vec (Xtr this) dualVec in
  if decide (alpha this < 1) then
    lossDual dualVec (y this) true
    + 0.5 * squaredL2Norm (vecSoftThreshold tmpInnerProd la) * updateDenomMult
  else
    let dualVec := vscale (Rmin (nLambda this / vmax (vabs tmpInnerProd)) 1) dualVec in
    lossDual dualVec (y this) true.

(** "Update eta" and "Update eta (intercept)"; returns the object and the
    new [aL1Prev]. *)
Definition updateEta (iter : Z) (aL1Prev : R) (this : t) : t * R :=
  let this := set_eta_0 (eta_0 this * etaMultiplier this) this in
  if intercept this then
    let aL1 := if useWeights this then accu (schur (sqrtWeights this) (a this))
               else accu (a this) in
    if decide ((iter > 1)%Z /\ aL1 > eps this /\ aL1 > 0.5 * aL1Prev) then
      (set_eta_1 (eta_1 this * (10 * etaMultiplier this)) this, aL1)
    else
      (set_eta_1 (eta_1 this * etaMultiplier this) this, aL1)
  else (this, aL1Prev).

(** One pass of the [while (1)] of [dal]; the flag is [true] on [break]. *)
Definition dal_pass (la updateDenomMult : R) (this : t) (l : dal_locals)
    : option (t * dal_locals * DebugLine * bool) :=
  let dualFunValPrev := d_dualFunVal l in
  let dualFunVal := dualValue this la updateDenomMult in
  let dualFunVal :=
    if decide ((d_iter l > 0)%Z /\ dualFunVal > dualFunValPrev) then dualFunValPrev
    else dualFunVal in
  let primalFunVal := fullObjectiveFun this (d_icpt l) (d_beta l) in
  let relativeDualityGap := (primalFunVal + dualFunVal) / primalFunVal in
  let line := mkDebug (d_iter l) primalFunVal dualFunVal relativeDualityGap
                      (eta_0 this) (eta_1 this) in
  if decide (relativeDualityGap < eps this) then
    Some (this, mkDal (d_iter l) dualFunVal (d_aL1Prev l) (d_beta l) (d_icpt l), line, true)
  else
    let iter := (d_iter l + 1)%Z in
    if decide (iter > maxIt this)%Z then
      Some (this, mkDal iter dualFunVal (d_aL1Prev l) (d_beta l) (d_icpt l), line, true)
    else
      '(this, beta, icpt, _) ← minimizePhi this (d_beta l) (d_icpt l);
      let '(this, aL1Prev) := updateEta iter (d_aL1Prev l) this in
      Some (this, mkDal iter dualFunVal aL1Prev beta icpt, line, false).

(** The [while (1)] of [dal]; [None] when [fuel] passes do not reach a
    [break].  The debug lines are collected in order. *)
Fixpoint dal_loop (fuel : nat) (la updateDenomMult : R) (this : t) (l : dal_locals)
    (log : list DebugLine) : option (t * dal_locals * list DebugLine) :=
  match fuel with
  | O => None
  | S fuel' =>
    '(this, l, line, stop) ← dal_pass la updateDenomMult this l;
    if stop : bool then Some (this, l, log ++ [line])
    else dal_loop fuel' la updateDenomMult this l (log ++ [line])
  end.

(** The start of [dal], up to the loop: the object with [nLambda], [eta]
    and the dual vector [a] set, the intercept and [beta]. *)
Definition dal_init (this : t) (icpt : R) (beta : vec) : t * R * vec :=
  let nobs := length (y this) in
  let this := set_nLambda (INR nobs * lambda this) this in
  let this :=
    if decide (etaStart this > 0) then set_eta_0 (etaStart this) this
    else
      let this := set_eta_0 (etaStartNumerator this / nLambda this) this in
      if decide (eta_0 this > 1000000) then set_eta_0 1000000 this else this in
  let this := set_eta_1 (eta_0 this) this in
  let icpt := if intercept this then icpt else 0 in
  if warmStart this then
    let this := set_a (vsub (y this) (matT_vec (Xtr this) beta)) this in
    if intercept this then
      if useWeights this then
        let icpt := mean (schur (sqrtWeights this) (a this)) in
        (set_a (vsub (a this) (vscale icpt (sqrtWeights this))) this, icpt, beta)
      else
        let icpt := mean (a this) in
        (set_a (vsub_scalar (a this) icpt) this, icpt, beta)
    else (this, 0, beta)
  else
    let '(this, icpt) :=
      if intercept this then
        if useWeights this then
          let icpt := mean (schur (sqrtWeights this) (y this)) in
          (set_a (vsub (y this) (vscale icpt (sqrtWeights this))) this, icpt)
        else
          let icpt := mean (y this) in
          (set_a (vsub_scalar (y this) icpt) this, icpt)
      else (set_a (y this) this, icpt) in
    (this, icpt, vzeros (length beta)).

(** Returns the object, [intercept], [beta] and the debug lines. *)
Definition dal (this : t) (icpt : R) (beta : vec)
    : option (t * R * vec * list DebugLine) :=
  let '(this, icpt, beta) := dal_init this icpt beta in
  let la := nLambda this * alpha this in
  let updateDenomMult := 1 / (nLambda this * (1 - alpha this)) in
  '(this, l, log) ← dal_loop (S (Z.to_nat (maxIt this))) la updateDenomMult this
                       (mkDal 0 0 0 beta icpt) [];
  let this :=
    if decide (d_iter l > maxIt this)%Z then
      set_statusMessage "algorithm did not converge" (set_status 1 this)
    else this in
  Some (this, d_icpt l, d_beta l, log).

(** Returns the object and the buffers behind [coefs] and [resids]. *)
Definition computeCoefsWeighted (coefs resids weights : list R) (this : t)
    : option (t * list R * list R) :=
  let origY := y this in
  let origXtr := Xtr this in
  if decide (bufferSizeNvar this = 0)%nat then
    if decide (0 < bufferSizeNobs this)%nat then Some (this, coefs, store 0 (y this) resids)
    else Some (this, coefs, resids)
  else
    let this := set_sqrtWeights (vsqrt (take (bufferSizeNobs this) weights)) this in
    let this := set_sqrtWeightsOuter (outer (sqrtWeights this) (sqrtWeights this)) this in
    let this := set_useWeights true this in
    if decide (bufferSizeNvar this = 1 \/ bufferSizeNobs this = 0)%nat then
      let icpt := if decide (0 < bufferSizeNobs this)%nat
                  then mean (schur (sqrtWeights this) (y this)) else 0 in
      let coefs := <[0%nat := icpt]> coefs in
      let coefs := store 1 (vzeros (bufferSizeNvar this - 1)) coefs in
      Some (this, coefs, store 0 (vsub_scalar (y this) icpt) resids)
    else
      let weightedY := schur (y this) (sqrtWeights this) in
      let weightedXtr := each_row_schur (Xtr this) (sqrtWeights this) in
      let this := set_y weightedY this in
      let this := set_Xtr weightedXtr this in
      '(this, icpt, beta, _) ← dal this (coefs !!! 0%nat)
                                   (take (bufferSizeNvar this - 1) (drop 1 coefs));
      let residuals :=
        if intercept this then vsub (vsub_scalar origY icpt) (matT_vec origXtr beta)
        else vsub origY (matT_vec origXtr beta) in
      let this := set_y origY this in
      let this := set_Xtr origXtr this in
      let this := set_useWeights false this in
      Some (this, store 1 beta (<[0%nat := icpt]> coefs), store 0 residuals resids).

Definition computeCoefs (coefs resids : list R) (this : t) : option (t * list R * list R) :=
  if decide (bufferSizeNvar this = 0)%nat then
    if decide (0 < bufferSizeNobs this)%nat then Some (this, coefs, store 0 (y this) resids)
    else Some (this, coefs, resids)
  else if decide (bufferSizeNvar this = 1 \/ bufferSizeNobs this = 0)%nat then
    let icpt := if decide (0 < bufferSizeNobs this)%nat then mean (y this) else 0 in
    let coefs := <[0%nat := icpt]> coefs in
    let coefs := store 1 (vzeros (bufferSizeNvar this - 1)) coefs in
    Some (this, coefs, store 0 (vsub_scalar (y this) icpt) resids)
  else
    let this := set_useWeights false this in
    '(this, icpt, beta, _) ← dal this (coefs !!! 0%nat)
                                 (take (bufferSizeNvar this - 1) (drop 1 coefs));
    let this := set_useWeights false this in
    let residuals :=
      if intercept this then vsub (vsub_scalar (y this) icpt) (matT_vec (Xtr this) beta)
      else vsub (y this) (matT_vec (Xtr this) beta) in
    Some (this, store 1 beta (<[0%nat := icpt]> coefs), store 0 residuals resids).

End Solver.

End ENDal.

(** ** IRWEN.cpp: the iteratively reweighted elastic-net driver *)

Module IRWEN.

Definition DEFAULT_OPT_MAXIT : Z := 1000.
Definition DEFAULT_OPT_EPS : R := 1 / 1000000.

Section Driver.

(** [NUMERIC_EPS] of config.h. *)
Variable NUMERIC_EPS : R.

(** The weighted elastic-net solver behind the pointer [en], with its
    virtual [computeCoefsWeighted] (which returns the object and what it
    wrote to [coefs] and [resids]) and [getStatus]. *)
Variable EN : Type.
Variable en_computeCoefsWeighted : list R -> list R -> list R -> EN -> EN * list R * list R.
Variable en_getStatus : EN -> Z.

(** The pure virtual [updateWeights(residuals)], which fills [weights]. *)
Variable updateWeights : list R -> list R.

(** [computeResiduals(Xtr, y, nobs, nvar, coefs, residuals)] of olsreg.h,
    which fills [residuals]. *)
Variable computeResiduals : list R -> list R -> nat -> nat -> list R -> list R.

Definition NUMERICAL_TOLERANCE : R := NUMERIC_EPS.

Record t := mk {
  data : Data;
  maxIt : Z;
  eps : R;
  weights : list R;
  en : EN;
  iteration : Z;
  relChangeVal : R
}.

(** The constructor; [solver] is the object that [getElasticNetImpl]
    returns, after [setOptions], [setAlphaLambda] and [setData]. *)
Definition new (data : Data) (opts : Options) (solver : EN) : t :=
  mk data (get_int opts "maxit" DEFAULT_OPT_MAXIT)
     (get_double opts "eps" DEFAULT_OPT_EPS * get_double opts "eps" DEFAULT_OPT_EPS)
     (vzeros (numObs data)) solver 0 0.

(** The [for] loop of "Compute relative change": the squared change and
    the squared norm of the old coefficients. *)
Definition changeAndNorm (numVar : nat) (oldCoef currentCoef : list R) : R * R :=
  foldl (fun '(relChangeVal, norm2Old) j =>
           let tmp := vnth oldCoef j - vnth currentCoef j in
           (relChangeVal + tmp * tmp, norm2Old + vnth oldCoef j * vnth oldCoef j))
        (0, 0) (seq 0 numVar).

(** The value left in [relChangeVal] after the [if] that follows. *)
Definition relChange (eps relChangeVal norm2Old : R) : R :=
  if decide (norm2Old < NUMERICAL_TOLERANCE) then
    if decide (relChangeVal < NUMERICAL_TOLERANCE) then 0 else 2 * eps
  else relChangeVal / norm2Old.

(** The body of the [do ... while]; returns the object, the two buffers
    and the warnings raised. *)
Definition compute_pass (this : t) (currentCoef residuals : list R)
    : t * list R * list R * list string :=
  let iteration := (iteration this + 1)%Z in
  let weights := updateWeights residuals in
  let oldCoef := take (numVar (data this)) currentCoef in
  let '(en, currentCoef, residuals) :=
    en_computeCoefsWeighted currentCoef residuals weights (en this) in
  let warnings :=
    if decide (en_getStatus en > 0)%Z
    then ["Weighted elastic net had non-successful status:"] else [] in
  let '(relChangeVal, norm2Old) := changeAndNorm (numVar (data this)) oldCoef currentCoef in
  (mk (data this) (maxIt this) (eps this) weights en iteration
      (relChange (eps this) relChangeVal norm2Old),
   currentCoef, residuals, warnings).

(** The [do ... while]; [None] when [fuel] passes do not leave it. *)
Fixpoint compute_loop (fuel : nat) (this : t) (currentCoef residuals : list R)
    (warnings : list string) : option (t * list R * list R * list string) :=
  match fuel with
  | O => None
  | S fuel' =>
    let '(this, currentCoef, residuals, w) := compute_pass this currentCoef residuals in
    if decide ((iteration this < maxIt this)%Z /\ relChangeVal this > eps this) then
      compute_loop fuel' this currentCoef residuals (warnings ++ w)
    else Some (this, currentCoef, residuals, warnings ++ w)
  end.

Definition compute (currentCoef residuals : list R) (this : t)
    : option (t * list R * list R * list string) :=
  let this := mk (data this) (maxIt this) (eps this) (weights this) (en this) 0
                 (relChangeVal this) in
  let residuals :=
    store 0 (computeResiduals (getXtrConst (data this)) (getYConst (data this))
                              (numObs (data this)) (numVar (data this)) currentCoef)
          residuals in
  compute_loop (S (Z.to_nat (maxIt this))) this currentCoef residuals [].

End Driver.

Arguments mk {EN}.
Arguments new {EN}.
Arguments data {EN}.
Arguments maxIt {EN}.
Arguments eps {EN}.
Arguments weights {EN}.
Arguments en {EN}.
Arguments iteration {EN}.
Arguments relChangeVal {EN}.

End IRWEN.

(** ** coordinate_descent.hpp: the coordinate-descent optimizer *)

Module CDPense.

Record CDPenseConfiguration := mkConfig {
  max_it : Z;
  linesearch_ss_multiplier : R;
  linesearch_ss_num : Z;
  reset_iter : Z
}.

Definition kDefaultCDConfiguration : CDPenseConfiguration :=
  mkConfig 1000 (1 / 1000000) 10 8.

(** Dense regression coefficients. *)
Record Coefficients := mkCoefs {
  intercept : R;
  beta : list R
}.

(** [coorddesc::State] *)
Record State := mkState {
  coefs : Coefficients;
  residuals : list R;
  mscale : R;
  objf_loss : R;
  objf_pen : R
}.

(** The result of [EvaluateResiduals]. *)
Record EvalLoss := mkEval { loss : R; scale : R }.

(** What the optimizer uses of [SLoss] (s_loss.hpp) and of the M-scale and
    rho function it owns.  [EvaluateResiduals] and [SetInitial] change the
    state of the M-scale, hence return the loss object. *)
Class SLossOps (SLoss : Type) := {
  ZeroCoefficients : SLoss -> Coefficients;
  Residuals : SLoss -> Coefficients -> list R;
  EvaluateResiduals : SLoss -> list R -> EvalLoss * SLoss;
  IncludeIntercept : SLoss -> bool;
  cx : SLoss -> mat;
  n_pred : SLoss -> nat;
  n_obs : SLoss -> nat;
  LastIterations : SLoss -> Z;
  SetInitial : R -> SLoss -> SLoss;
  delta : SLoss -> R;
  cc : SLoss -> R;
  Derivative : SLoss -> list R -> R -> list R
}.

(** What the optimizer uses of an EN-type penalty; [is_adaptive] is the
    trait that selects the overloads taking [loadings]. *)
Class PenaltyOps (PenaltyFunction : Type) := {
  is_adaptive : bool;
  lambda : PenaltyFunction -> R;
  alpha : PenaltyFunction -> R;
  loadings : PenaltyFunction -> list R;
  Evaluate : PenaltyFunction -> Coefficients -> R
}.

Inductive OptimumStatus := kOk | kWarning | kError.

(** [Optimum]: the coefficients and residuals, the status and message,
    and the "iter" entry of the metrics. *)
Record Optimum := mkOptimum {
  opt_coefs : Coefficients;
  opt_residuals : list R;
  opt_iter : Z;
  opt_status : OptimumStatus;
  opt_message : string
}.

Inductive exception := logic_error (what : string).

(** Column [j] of a matrix. *)
Definition col (m : mat) (j : nat) : list R := map (fun i => at_ m i j) (seq 0 (n_rows m)).

Definition cbrt (x : R) : R :=
  if decide (0 < x) then Rpower x (/ 3)
  else if decide (x < 0) then - Rpower (- x) (/ 3) else 0.

Section Optimizer.

Context {SLoss PenaltyFunction : Type} `{!SLossOps SLoss} `{!PenaltyOps PenaltyFunction}.

(** [kNumericZero] and [nsoptim::SoftThreshold] of nsoptim. *)
Variable kNumericZero : R.
Variable SoftThreshold : R -> R -> R.

Record t := mk {
  loss_ : option SLoss;
  penalty_ : option PenaltyFunction;
  config_ : CDPenseConfiguration;
  lipschitz_bounds_ : list R;
  lipschitz_bound_intercept_ : R;
  state_ : State;
  convergence_tolerance_ : R
}.

Definition set_state (st : State) (this : t) : t :=
  mk (loss_ this) (penalty_ this) (config_ this) (lipschitz_bounds_ this)
     (lipschitz_bound_intercept_ this) st (convergence_tolerance_ this).
Definition set_loss (l : SLoss) (this : t) : t :=
  mk (Some l) (penalty_ this) (config_ this) (lipschitz_bounds_ this)
     (lipschitz_bound_intercept_ this) (state_ this) (convergence_tolerance_ this).

(** [ResetState] once the two pointers are known not to be null. *)
Definition ResetState_with (l : SLoss) (p : PenaltyFunction) (start : Coefficients)
    (this : t) : t :=
  let st := mkState start (Residuals l start) 0 0 (Evaluate p start) in
  let '(loss_eval, l) := EvaluateResiduals l (residuals st) in
  set_loss l (set_state (mkState (coefs st) (residuals st) (scale loss_eval)
                                 (loss loss_eval) (objf_pen st)) this).

Definition ResetState (start : Coefficients) (this : t) : exception + t :=
  match loss_ this, penalty_ this with
  | None, _ => inl (logic_error "no loss set")
  | Some _, None => inl (logic_error "no penalty set")
  | Some l, Some p => inr (ResetState_with l p start this)
  end.

Definition UpdateLipschitzBounds (l : SLoss) (this : t) : t :=
  let eff_n := INR (n_obs l) * (1 - delta l) in
  let separation := eff_n - IZR (Int_part eff_n) in
  let mult := ln (separation * (1 - separation)) / cbrt eff_n in
  let u1 := Rmin 80 (-40 * mult) / cc l in
  let u2 := Rmin 50 (100 * mult * mult * mult * mult) / cc l in
  let bounds :=
    map (fun j => u1 * u1 * (accu (col (cx l) j) * accu (col (cx l) j))
                  + u2 * mscale (state_ this)
                    * Rabs (accu (mem (outer (col (cx l) j) (col (cx l) j)))))
        (seq 0 (n_pred l)) in
  mk (loss_ this) (penalty_ this) (config_ this) bounds
     ((u1 * u1 + u2 * mscale (state_ this)) * INR (n_obs l) * INR (n_obs l))
     (state_ this) (convergence_tolerance_ this).

Definition Gradient (l : SLoss) (st : State) : R :=
  let psi := Derivative l (residuals st) (mscale st) in
  - mscale st * mscale st * accu psi / dot psi (residuals st).

Definition Gradient_j (l : SLoss) (st : State) (j : nat) : R :=
  let psi := Derivative l (residuals st) (mscale st) in
  - mscale st * mscale st * dot psi (col (cx l) j) / dot psi (residuals st).

Definition UpdateSlope (p : PenaltyFunction) (st : State) (j : nat) (stepsize gradient : R) : R :=
  let dir := stepsize * vnth (beta (coefs st)) j - gradient in
  if is_adaptive then
    let penalty_level := vnth (loadings p) j * lambda p in
    SoftThreshold dir (penalty_level * alpha p)
    / (stepsize + penalty_level * (1 - alpha p))
  else
    SoftThreshold dir (lambda p * alpha p) / (stepsize + lambda p * (1 - alpha p)).

Definition PenaltyContribution (p : PenaltyFunction) (value : R) (j : nat) : R :=
  if is_adaptive then
    vnth (loadings p) j * lambda p
    * (alpha p * Rabs value + 0.5 * (1 - alpha p) * value * value)
  else
    lambda p * (alpha p * Rabs value + 0.5 * (1 - alpha p) * value * value).

Definition set_residuals (r : list R) (st : State) : State :=
  mkState (coefs st) r (mscale st) (objf_loss st) (objf_pen st).
Definition set_intercept (v : R) (st : State) : State :=
  mkState (mkCoefs v (beta (coefs st))) (residuals st) (mscale st) (objf_loss st) (objf_pen st).
Definition set_beta_j (j : nat) (v : R) (st : State) : State :=
  mkState (mkCoefs (intercept (coefs st)) (<[j := v]> (beta (coefs st))))
          (residuals st) (mscale st) (objf_loss st) (objf_pen st).

(** The local variables of a line search. *)
Record ls_locals := mkLs {
  ls_step : Z;
  updated_coef : R;
  stepsize : R;
  total_mscale_iterations : Z
}.

(** The line search for the intercept; [n] is the number of times the
    test [ls_step++ < linesearch_ss_num] can still succeed. *)
Fixpoint intercept_linesearch (n : nat) (tol mult gradient : R)
    (l : SLoss) (st : State) (v : ls_locals) : SLoss * State * ls_locals :=
  match n with
  | O => (l, st, mkLs (ls_step v + 1) (updated_coef v) (stepsize v) (total_mscale_iterations v))
  | S n' =>
    let step := (ls_step v + 1)%Z in
    let try_coef := intercept (coefs st) - gradient / stepsize v in
    let st := set_residuals (vadd_scalar (residuals st) (updated_coef v - try_coef)) st in
    let '(eval_loss, l) := EvaluateResiduals l (residuals st) in
    let total := (total_mscale_iterations v + LastIterations l)%Z in
    if decide (loss eval_loss > objf_loss st + tol
               \/ ((step > 0)%Z /\ loss eval_loss > objf_loss st)) then
      let st := set_residuals (vsub_scalar (residuals st) (updated_coef v - try_coef)) st in
      (SetInitial (mscale st) l, st, mkLs step (updated_coef v) (stepsize v) total)
    else
      let st := mkState (coefs st) (residuals st) (scale eval_loss) (loss eval_loss)
                        (objf_pen st) in
      intercept_linesearch n' tol mult gradient l st
                           (mkLs step try_coef (stepsize v * mult) total)
  end.

(** The line search for slope [j]. *)
Fixpoint slope_linesearch (n : nat) (tol mult gradient objf_pen_prev : R) (j : nat)
    (p : PenaltyFunction) (l : SLoss) (st : State) (v : ls_locals)
    : SLoss * State * ls_locals :=
  match n with
  | O => (l, st, mkLs (ls_step v + 1) (updated_coef v) (stepsize v) (total_mscale_iterations v))
  | S n' =>
    let step := (ls_step v + 1)%Z in
    let try_coef := UpdateSlope p st j (stepsize v) gradient in
    if decide (Rabs (try_coef - vnth (beta (coefs st)) j) > kNumericZero) then
      let delta_r := vscale (updated_coef v - try_coef) (col (cx l) j) in
      let st := set_residuals (vadd (residuals st) delta_r) st in
      let '(eval_loss, l) := EvaluateResiduals l (residuals st) in
      let new_objf_pen := objf_pen_prev + PenaltyContribution p try_coef j in
      let new_objf := loss eval_loss + new_objf_pen in
      let total := (total_mscale_iterations v + LastIterations l)%Z in
      if decide (new_objf > objf_loss st + objf_pen st + tol
                 \/ ((step > 0)%Z /\ new_objf > objf_loss st + objf_pen st)) then
        let st := set_residuals (vsub (residuals st) delta_r) st in
        (SetInitial (mscale st) l, st, mkLs step (updated_coef v) (stepsize v) total)
      else
        let st := mkState (coefs st) (residuals st) (scale eval_loss) (loss eval_loss)
                          new_objf_pen in
        slope_linesearch n' tol mult gradient objf_pen_prev j p l st
                         (mkLs step try_coef (stepsize v * mult) total)
    else
      slope_linesearch n' tol mult gradient objf_pen_prev j p l st
                       (mkLs step (updated_coef v) (stepsize v * mult)
                             (total_mscale_iterations v))
  end.

(** The update of the intercept in one cycle. *)
Definition intercept_update (this : t) (l : SLoss) (st : State) : SLoss * State :=
  let gradient := Gradient l st in
  let '(l, st, v) :=
    intercept_linesearch (Z.to_nat (linesearch_ss_num (config_ this) + 1))
      (convergence_tolerance_ this) (linesearch_ss_multiplier (config_ this)) gradient l st
      (mkLs (-1) (intercept (coefs st)) (lipschitz_bound_intercept_ this) 0) in
  if decide (ls_step v > 0)%Z then (l, set_intercept (updated_coef v) st) else (l, st).

(** The update of slope [j] in one cycle. *)
Definition slope_update (this : t) (p : PenaltyFunction) (j : nat) (l : SLoss) (st : State)
    : SLoss * State :=
  let gradient := Gradient_j l st j in
  let objf_pen_prev := objf_pen st - PenaltyContribution p (vnth (beta (coefs st)) j) j in
  let '(l, st, v) :=
    slope_linesearch (Z.to_nat (linesearch_ss_num (config_ this) + 1))
      (convergence_tolerance_ this) (linesearch_ss_multiplier (config_ this)) gradient
      objf_pen_prev j p l st
      (mkLs (-1) (vnth (beta (coefs st)) j) (vnth (lipschitz_bounds_ this) j) 0) in
  if decide ((ls_step v > 0)%Z
             /\ Rabs (updated_coef v - vnth (beta (coefs st)) j) > kNumericZero) then
    (l, set_beta_j j (updated_coef v) st)
  else (l, st).

(** One cycle over the intercept and all slopes, in index order. *)
Definition cycle (this : t) (p : PenaltyFunction) (l : SLoss) (st : State) : SLoss * State :=
  let '(l, st) := if IncludeIntercept l then intercept_update this l st else (l, st) in
  foldl (fun '(l, st) j => slope_update this p j l st) (l, st) (seq 0 (n_pred l)).

(** The [while (iter++ < max_it)]; [n] is the number of times the test
    can still succeed and [iter] the counter before the test.  Returns
    the optimum and the final loss object and state.  [%] is [Z.rem];
    a [reset_iter] of 0, which C++ leaves undefined, never resets. *)
Fixpoint cd_loop (n : nat) (iter : Z) (this : t) (p : PenaltyFunction) (l : SLoss)
    (st : State) : Optimum * SLoss * State :=
  match n with
  | O =>
    let iter := (iter + 1)%Z in
    let st := set_residuals (Residuals l (coefs st)) st in
    (mkOptimum (coefs st) (residuals st) iter kWarning "Coordinate descent did not converge.",
     l, st)
  | S n' =>
    let iter := (iter + 1)%Z in
    let objf_before_iter := objf_loss st + objf_pen st in
    let '(l, st) := cycle this p l st in
    let objf_change := (objf_loss st + objf_pen st) - objf_before_iter in
    if decide (objf_change * objf_change
               < convergence_tolerance_ this * convergence_tolerance_ this) then
      (mkOptimum (coefs st) (residuals st) iter kOk "", l, st)
    else
      let st :=
        if decide ((iter > 0)%Z /\ Z.rem iter (reset_iter (config_ this)) = 0%Z)
        then set_residuals (Residuals l (coefs st)) st else st in
      cd_loop n' iter this p l st
  end.

(** The start of [Optimize(max_it)], once the two pointers are known not
    to be null: the state and the Lipschitz bounds are set if they are
    empty.  Returns the object and its loss. *)
Definition Optimize_prepare (l : SLoss) (p : PenaltyFunction) (this : t) : t * SLoss :=
  let this :=
    if decide (length (residuals (state_ this)) = 0%nat)
    then ResetState_with l p (ZeroCoefficients l) this else this in
  let l := default l (loss_ this) in
  let this :=
    if decide (length (lipschitz_bounds_ this) = 0%nat)
    then UpdateLipschitzBounds l this else this in
  (this, l).

(** [Optimize(max_it)]: an exception, or the optimum and the object. *)
Definition Optimize (max_it : Z) (this : t) : exception + Optimum * t :=
  match loss_ this, penalty_ this with
  | None, _ => inl (logic_error "no loss set")
  | Some _, None => inl (logic_error "no penalty set")
  | Some l, Some p =>
    let '(this, l) := Optimize_prepare l p this in
    let '(optimum, l, st) := cd_loop (Z.to_nat max_it) 0 this p l (state_ this) in
    inr (optimum, set_loss l (set_state st this))
  end.

(** No cycle of the next [n] meets the test on the squared change of the
    objective (the condition under which the loop runs to its end). *)
Fixpoint never_converges (n : nat) (iter : Z) (this : t) (p : PenaltyFunction) (l : SLoss)
    (st : State) : Prop :=
  match n with
  | O => True
  | S n' =>
    let iter := (iter + 1)%Z in
    let objf_before_iter := objf_loss st + objf_pen st in
    let '(l, st) := cycle this p l st in
    let objf_change := (objf_loss st + objf_pen st) - objf_before_iter in
    ~ objf_change * objf_change < convergence_tolerance_ this * convergence_tolerance_ this /\
    let st :=
      if decide ((iter > 0)%Z /\ Z.rem iter (reset_iter (config_ this)) = 0%Z)
      then set_residuals (Residuals l (coefs st)) st else st in
    never_converges n' iter this p l st
  end.

(** [Optimize()] *)
Definition Optimize_default (this : t) : exception + Optimum * t :=
  Optimize (max_it (config_ this)) this.

(** [Optimize(start)] and [Optimize(start, max_it)] *)
Definition Optimize_from (start : Coefficients) (maxit : option Z) (this : t)
    : exception + Optimum * t :=
  match ResetState start this with
  | inl e => inl e
  | inr this => Optimize (default (max_it (config_ this)) maxit) this
  end.

End Optimizer.

End CDPense.

(** ** Inputs used in the examples *)

(** The weighted mean of [y] under the weights [w], as the specification
    uses the term: [sum w_i y_i / sum w_i]. *)
Definition weighted_mean (w y : list R) : R := accu (schur w y) / accu w.

(** One observation [y = 1] and the intercept column only. *)
Definition intercept_only : Data := mkData 1 1 [1] [1].
Definition en_intercept_only : ENDal.t := ENDal.setData intercept_only (ENDal.new true).

(** A weighted solver that returns the coefficient 1 whatever the
    weights (as on data whose response is the constant 1), and a driver
    over it with the convergence tolerance 0 and at most 10 iterations. *)
Definition constant_solver (coefs resids weights : list R) (en : unit)
    : unit * list R * list R := (en, [1], [0]).
Definition irwen_options : Options := {[ "eps" := OptDouble 0; "maxit" := OptInt 10 ]}.
Definition irwen_tolerance_zero : IRWEN.t unit :=
  IRWEN.new (mkData 1 1 [1] [1]) irwen_options tt.

(** A linear solver for systems of one equation ([solve] on 1 x 1
    matrices). *)
Definition solve_1x1 (A : mat) (b : vec) : vec := [vnth b 0 / at_ A 0 0].

(** One observation with the predictor 1 and the response 1, and a solver
    without intercept, with one outer and one Newton iteration, no warm
    start and the first step size 1, for the ridge penalty
    [alpha = 0], [lambda = 1]. *)
Definition one_predictor : Data := mkData 1 2 [1] [1; 1].
Definition en_ridge_options : Options :=
  {[ "maxit" := OptInt 1; "warmStart" := OptBool false; "etaStart" := OptDouble 1 ]}.
Definition en_ridge : ENDal.t :=
  ENDal.setData one_predictor
    (ENDal.setAlphaLambda 0 1 (ENDal.new_with false en_ridge_options)).

(** The object after the first weighted solve of [en_ridge] with the
    weight 1. *)
Definition en_ridge_solved : ENDal.t :=
  ENDal.mk false 1 "algorithm did not converge" 1 (1 / 100000) false 1 (1 / 100) 2 true 1 2
           [1] (mkmat 1 1 [1]) false [1] (mkmat 1 1 [1]) 1 0 1 2 1 [2 / 3]
           (mkmat 1 1 [1]) [0%nat].
Definition no_buffer : Options := {[ "useBuffer" := OptBool false ]}.

(** One observation with the predictor 1 and the response 0, and a solver
    with an intercept, at most two iterations and the first step size 1,
    for [alpha = 0] and [lambda = 1]; then the object at the start of the
    loop of [dal] (from the coefficients [0; -1]) and after each of the
    two inner steps. *)
Definition one_response_zero : Data := mkData 1 2 [0] [1; 1].
Definition en_eta_options : Options := {[ "maxit" := OptInt 2; "etaStart" := OptDouble 1 ]}.
Definition en_eta : ENDal.t :=
  ENDal.setData one_response_zero
    (ENDal.setAlphaLambda 0 1 (ENDal.new_with true en_eta_options)).
Definition en_eta_0 : ENDal.t :=
  ENDal.mk true 0 "" 2 (1 / 100000) true 1 (1 / 100) 2 true 1 2
           [0] (mkmat 1 1 [1]) false [1] (mkmat 0 0 []) 1 0 1 1 1 [0]
           (mkmat 1 1 [0]) [].
Definition en_eta_1 : ENDal.t :=
  ENDal.set_a [-1 / 5]
    (ENDal.set_eta_1 2 (ENDal.set_eta_0 2
       (ENDal.set_hessBuffKeep [0%nat] (ENDal.set_hessBuff (mkmat 1 1 [1]) en_eta_0)))).
Definition en_eta_2 : ENDal.t :=
  ENDal.set_a [-9 / 55] (ENDal.set_eta_1 4 (ENDal.set_eta_0 4 en_eta_1)).

(** No variable and two observations. *)
Definition no_variables : Data := mkData 2 0 [3; 5] [].
Definition en_no_variables : ENDal.t := ENDal.setData no_variables (ENDal.new true).

(** A loss and a penalty that are constant, over one observation and no
    predictor, and an optimizer over them with the tolerance 0. *)
#[local] Instance constant_loss : CDPense.SLossOps unit := {|
  CDPense.ZeroCoefficients _ := CDPense.mkCoefs 0 [];
  CDPense.Residuals _ _ := [0];
  CDPense.EvaluateResiduals l _ := (CDPense.mkEval 0 1, l);
  CDPense.IncludeIntercept _ := false;
  CDPense.cx _ := mkmat 1 0 [];
  CDPense.n_pred _ := 0%nat;
  CDPense.n_obs _ := 1%nat;
  CDPense.LastIterations _ := 0%Z;
  CDPense.SetInitial _ l := l;
  CDPense.delta _ := 1 / 2;
  CDPense.cc _ := 1;
  CDPense.Derivative _ r _ := r
|}.
#[local] Instance constant_penalty : CDPense.PenaltyOps unit := {|
  CDPense.is_adaptive := false;
  CDPense.lambda _ := 0;
  CDPense.alpha _ := 0;
  CDPense.loadings _ := [];
  CDPense.Evaluate _ _ := 0
|}.
Definition cd_constant : CDPense.t :=
  CDPense.mk (Some tt) (Some tt) CDPense.kDefaultCDConfiguration [1] 0
             (CDPense.mkState (CDPense.mkCoefs 0 []) [0] 1 0 0) 0.

(** ** Closed arithmetic *)

(** Arithmetic expressions over numerals, with their value as a real and
    as a rational number; the second one computes. *)
Inductive cexp :=
| cZ (z : Z) | cLit (q : Q)
| cAdd (a b : cexp) | cSub (a b : cexp) | cMul (a b : cexp) | cDiv (a b : cexp)
| cOpp (a : cexp) | cInv (a : cexp) | cAbs (a : cexp).

(** The fraction [n / d], the form in which evaluation leaves a number
    that is not an integer. *)
Definition frac (n : Z) (d : positive) : R := IZR n / IZR (Zpos d).

Fixpoint cR (e : cexp) : R :=
  match e with
  | cZ z => IZR z
  | cLit q => Q2R q
  | cAdd a b => cR a + cR b
  | cSub a b => cR a - cR b
  | cMul a b => cR a * cR b
  | cDiv a b => cR a / cR b
  | cOpp a => - cR a
  | cInv a => / cR a
  | cAbs a => Rabs (cR a)
  end.

Fixpoint cQ (e : cexp) : Q :=
  match e with
  | cZ z => inject_Z z
  | cLit q => q
  | cAdd a b => cQ a + cQ b
  | cSub a b => cQ a - cQ b
  | cMul a b => cQ a * cQ b
  | cDiv a b => cQ a / cQ b
  | cOpp a => - cQ a
  | cInv a => / cQ a
  | cAbs a => Qabs (cQ a)
  end%Q.

(** ** Vocabulary of the statements *)

(** The members of an [ENDal] object that a solve only reads: the
    options, the installed data, the weights and the penalty. *)
Definition installed (s : ENDal.t) :=
  (ENDal.intercept s, ENDal.maxIt s, ENDal.eps s, ENDal.warmStart s, ENDal.etaStart s,
   ENDal.etaStartNumerator s, ENDal.etaMultiplier s, ENDal.useHessBuffer s,
   ENDal.bufferSizeNobs s, ENDal.bufferSizeNvar s, ENDal.y s, ENDal.Xtr s,
   ENDal.useWeights s, ENDal.sqrtWeights s, ENDal.sqrtWeightsOuter s,
   ENDal.lambda s, ENDal.alpha s, ENDal.nLambda s).

(** The Hessian buffer holds the matrix of its key for the matrix [Xtr]
    that the object points to. *)
Definition coherent (this : ENDal.t) : Prop :=
  ENDal.hessBuff this = ENDal.hess_of (ENDal.Xtr this) (ENDal.hessBuffKeep this).

(** The indices fit the 64 bits of [uword]. *)
Definition uwords (keep : list nat) : Prop :=
  Forall (fun k => (Z.of_nat k < 2 ^ 64)%Z) keep.

(** Each element of the list is at most the one before it. *)
Definition nonincreasing (l : list R) : Prop :=
  forall k prev cur, l !! k = Some prev -> l !! S k = Some cur -> cur <= prev.

(** ** Theorems *)

(** *** Tactics *)

Lemma Q2R_inv_total (q : Q) : Q2R (/ q) = / Q2R q.
Proof.
  destruct (Qeq_dec q 0) as [Hz|Hnz]; [|apply Q2R_inv, Hnz].
  assert (Q2R q = 0) as -> by (rewrite (Qeq_eqR _ _ Hz); unfold Q2R; cbn; lra).
  rewrite Rinv_0. destruct q as [n d]. unfold Qeq in Hz. cbn in Hz.
  assert (n = 0%Z) as -> by lia. unfold Q2R. cbn. lra.
Qed.

Lemma Q2R_abs (q : Q) : Q2R (Qabs q) = Rabs (Q2R q).
Proof.
  apply Qabs_case; intros H.
  - apply Qle_Rle in H. rewrite Rabs_right; [reflexivity|]. unfold Q2R at 1 in H. cbn in H. lra.
  - apply Qle_Rle in H. rewrite Q2R_opp. rewrite Rabs_left1; [reflexivity|].
    unfold Q2R at 2 in H. cbn in H. lra.
Qed.

Lemma cR_cQ (e : cexp) : cR e = Q2R (cQ e).
Proof.
  induction e; cbn [cR cQ].
  - unfold Q2R. cbn. lra.
  - reflexivity.
  - rewrite Q2R_plus. congruence.
  - rewrite Q2R_minus. congruence.
  - rewrite Q2R_mult. congruence.
  - unfold Qdiv, Rdiv. rewrite Q2R_mult, Q2R_inv_total. congruence.
  - rewrite Q2R_opp. congruence.
  - rewrite Q2R_inv_total. congruence.
  - rewrite Q2R_abs. congruence.
Qed.

Lemma cR_lt (a b : cexp) : Qle_bool (cQ b) (cQ a) = false -> cR a < cR b.
Proof.
  intros H. rewrite !cR_cQ. apply Qlt_Rlt, Qnot_le_lt. intros Hle.
  apply Qle_bool_iff in Hle. congruence.
Qed.

Lemma cR_le (a b : cexp) : Qle_bool (cQ a) (cQ b) = true -> cR a <= cR b.
Proof. intros H. rewrite !cR_cQ. apply Qle_Rle, Qle_bool_iff, H. Qed.

Lemma cR_eq (a b : cexp) : Qeq_bool (cQ a) (cQ b) = true -> cR a = cR b.
Proof. intros H. rewrite !cR_cQ. apply Qeq_eqR, Qeq_bool_iff, H. Qed.

Lemma cR_neq (a b : cexp) : Qeq_bool (cQ a) (cQ b) = false -> cR a <> cR b.
Proof.
  intros H. rewrite !cR_cQ. intros He. apply eqR_Qeq, Qeq_bool_iff in He. congruence.
Qed.

Ltac reify t :=
  lazymatch t with
  | IZR ?z => constr:(cZ z)
  | Q2R ?q => constr:(cLit q)
  | frac ?n ?d => constr:(cLit (Qmake n d))
  | ?a + ?b => let x := reify a in let y := reify b in constr:(cAdd x y)
  | ?a - ?b => let x := reify a in let y := reify b in constr:(cSub x y)
  | ?a * ?b => let x := reify a in let y := reify b in constr:(cMul x y)
  | ?a / ?b => let x := reify a in let y := reify b in constr:(cDiv x y)
  | - ?a => let x := reify a in constr:(cOpp x)
  | / ?a => let x := reify a in constr:(cInv x)
  | Rabs ?a => let x := reify a in constr:(cAbs x)
  end.

(** Decides a comparison of two closed arithmetic expressions. *)
Ltac closed_real :=
  lazymatch goal with
  | |- ?a < ?b =>
    let x := reify a in let y := reify b in
    change (cR x < cR y); apply cR_lt; vm_compute; reflexivity
  | |- ?a > ?b =>
    let x := reify a in let y := reify b in
    change (cR y < cR x); apply cR_lt; vm_compute; reflexivity
  | |- ?a <= ?b =>
    let x := reify a in let y := reify b in
    change (cR x <= cR y); apply cR_le; vm_compute; reflexivity
  | |- @eq R ?a ?b =>
    let x := reify a in let y := reify b in
    change (cR x = cR y); apply cR_eq; vm_compute; reflexivity
  | |- ~ (?a < ?b) =>
    let x := reify a in let y := reify b in
    apply Rle_not_lt; change (cR y <= cR x); apply cR_le; vm_compute; reflexivity
  | |- ~ (?a > ?b) =>
    let x := reify a in let y := reify b in
    apply Rle_not_lt; change (cR x <= cR y); apply cR_le; vm_compute; reflexivity
  | |- ~ (?a <= ?b) =>
    let x := reify a in let y := reify b in
    apply Rlt_not_le; change (cR y < cR x); apply cR_lt; vm_compute; reflexivity
  | |- ~ (@eq R ?a ?b) =>
    let x := reify a in let y := reify b in
    change (cR x <> cR y); apply cR_neq; vm_compute; reflexivity
  end.

(** Settles a test on closed numbers. *)
Ltac solve_closed :=
  cbn;
  lazymatch goal with
  | |- ?A /\ ?B => split; solve_closed
  | |- ?A \/ ?B => first [left; solve_closed | right; solve_closed]
  | |- ~ (?A /\ ?B) =>
    first [ assert (~ A) by solve_closed; tauto | assert (~ B) by solve_closed; tauto ]
  | |- ~ (?A \/ ?B) => assert (~ A) by solve_closed; assert (~ B) by solve_closed; tauto
  | |- _ => first [lia | closed_real | reflexivity | discriminate | tauto]
  end.

Ltac decide_closed :=
  match goal with
  | |- context [decide ?P] =>
    first [ rewrite (decide_True (P := P)) by solve_closed
          | rewrite (decide_False (P := P)) by solve_closed ]
  | |- context [bool_decide ?P] =>
    first [ rewrite (bool_decide_eq_true_2 P) by solve_closed
          | rewrite (bool_decide_eq_false_2 P) by solve_closed ]
  end.

Lemma squaredL2Norm_dot (v : list R) : squaredL2Norm v = dot v v.
Proof.
  unfold squaredL2Norm, norm2. apply sqrt_sqrt.
  unfold dot, accu. induction v as [|x v IH]; cbn; [lra|].
  pose proof (Rle_0_sqr x) as Hx. unfold Rsqr in Hx. lra.
Qed.

Ltac run := repeat (rewrite ?squaredL2Norm_dot; cbn -[squaredL2Norm]; try decide_closed).

Lemma sqrt_4 : sqrt 4 = 2.
Proof. replace 4 with (2 * 2) by lra. apply sqrt_square. lra. Qed.

Lemma mean_singleton (x : R) : mean [x] = x.
Proof. unfold mean. cbn. lra. Qed.

(** *** [setLambdas] *)

(** C7: for non-negative [lambda1] and [lambda2], [setLambdas] sets
    [lambda] to [lambda1 + lambda2] and [alpha] to
    [lambda1 / (lambda1 + lambda2)], and to 0 when both are zero. *)
Theorem setLambdas_spec (lambda1 lambda2 : R) (this : ENDal.t) :
  0 <= lambda1 -> 0 <= lambda2 ->
  let this' := ENDal.setLambdas lambda1 lambda2 this in
  ENDal.lambda this' = lambda1 + lambda2 /\
  (lambda1 + lambda2 <> 0 -> ENDal.alpha this' = lambda1 / (lambda1 + lambda2)) /\
  (lambda1 = 0 /\ lambda2 = 0 -> ENDal.alpha this' = 0).
Proof.
  intros H1 H2 this'. subst this'. unfold ENDal.setLambdas.
  case_decide as Hz; cbn.
  - split; [lra | split; [intros Hnz; lra | reflexivity]].
  - split; [lra | split; [intros _; f_equal; lra | intros [-> ->]; tauto]].
Qed.

Lemma setLambdas_spec_witness :
  ENDal.lambda (ENDal.setLambdas 1 3 (ENDal.new true)) = 1 + 3 /\
  ENDal.alpha (ENDal.setLambdas 1 3 (ENDal.new true)) = 1 / (1 + 3).
Proof.
  destruct (setLambdas_spec 1 3 (ENDal.new true) ltac:(lra) ltac:(lra)) as (Hl & Ha & _).
  split; [exact Hl | apply Ha; lra].
Defined.

(** *** The paths of [computeCoefs] and [computeCoefsWeighted] that do not iterate *)

Section Degenerate.

Variable solve : mat -> vec -> vec.

(** C10: with [n_var = 0] both functions return the coefficient buffer as
    it was; the residual buffer receives the response when [n_obs > 0] and
    is left as it was when [n_obs = 0]; the object, hence [sqrtWeights],
    [sqrtWeightsOuter] and [useWeights], does not change. *)
Theorem computeCoefs_no_variables (this : ENDal.t) (coefs resids weights : list R) :
  ENDal.bufferSizeNvar this = 0%nat ->
  let resids' := if decide (0 < ENDal.bufferSizeNobs this)%nat
                 then ENDal.y this ++ drop (length (ENDal.y this)) resids
                 else resids in
  ENDal.computeCoefs solve coefs resids this = Some (this, coefs, resids') /\
  ENDal.computeCoefsWeighted solve coefs resids weights this = Some (this, coefs, resids').
Proof.
  intros Hn resids'. subst resids'.
  unfold ENDal.computeCoefs, ENDal.computeCoefsWeighted.
  destruct (decide (ENDal.bufferSizeNvar this = 0%nat)) as [_|?]; [|done].
  case_decide; split; reflexivity.
Qed.

(** What the fast path does (the code of both functions, with the
    intercept that each of them computes). *)
Lemma computeCoefs_fast_path (this : ENDal.t) (coefs resids : list R) :
  ENDal.bufferSizeNvar this <> 0%nat ->
  (ENDal.bufferSizeNvar this = 1 \/ ENDal.bufferSizeNobs this = 0)%nat ->
  let icpt := if decide (0 < ENDal.bufferSizeNobs this)%nat then mean (ENDal.y this) else 0 in
  ENDal.computeCoefs solve coefs resids this
  = Some (this,
          store 1 (vzeros (ENDal.bufferSizeNvar this - 1)) (<[0%nat := icpt]> coefs),
          store 0 (vsub_scalar (ENDal.y this) icpt) resids).
Proof.
  intros Hn Hf. unfold ENDal.computeCoefs.
  rewrite decide_False by assumption. rewrite decide_True by assumption. reflexivity.
Qed.

Lemma computeCoefsWeighted_fast_path (this : ENDal.t) (coefs resids weights : list R) :
  ENDal.bufferSizeNvar this <> 0%nat ->
  (ENDal.bufferSizeNvar this = 1 \/ ENDal.bufferSizeNobs this = 0)%nat ->
  let sqrtWeights := vsqrt (take (ENDal.bufferSizeNobs this) weights) in
  let icpt := if decide (0 < ENDal.bufferSizeNobs this)%nat
              then mean (schur sqrtWeights (ENDal.y this)) else 0 in
  ENDal.computeCoefsWeighted solve coefs resids weights this
  = Some (ENDal.set_useWeights true
            (ENDal.set_sqrtWeightsOuter (outer sqrtWeights sqrtWeights)
               (ENDal.set_sqrtWeights sqrtWeights this)),
          store 1 (vzeros (ENDal.bufferSizeNvar this - 1)) (<[0%nat := icpt]> coefs),
          store 0 (vsub_scalar (ENDal.y this) icpt) resids).
Proof.
  intros Hn Hf. unfold ENDal.computeCoefsWeighted.
  rewrite decide_False by assumption. cbn. rewrite decide_True by assumption. reflexivity.
Qed.

Lemma en_intercept_only_eq :
  en_intercept_only
  = ENDal.set_hessBuff (zeros 1 1)
      (ENDal.set_hessBuffKeep []
         (ENDal.set_bufferSizeNobs 1
            (ENDal.set_a [-1]
               (ENDal.set_Xtr (mkmat 0 1 [])
                  (ENDal.set_y [1] (ENDal.set_bufferSizeNvar 1 (ENDal.new true))))))).
Proof. unfold en_intercept_only, ENDal.setData, intercept_only. run. reflexivity. Qed.

(** The weighted solve of the intercept-only data [y = 1] with the weight
    4, from coefficients [0]. *)
Lemma weighted_intercept_only_run :
  ENDal.computeCoefsWeighted solve [0] [0] [4] en_intercept_only
  = Some (ENDal.set_useWeights true
            (ENDal.set_sqrtWeightsOuter (outer [2] [2])
               (ENDal.set_sqrtWeights [2] en_intercept_only)),
          [2], [-1]).
Proof.
  rewrite computeCoefsWeighted_fast_path.
  - rewrite en_intercept_only_eq. run. rewrite sqrt_4, mean_singleton.
    unfold store. cbn. repeat f_equal; lra.
  - rewrite en_intercept_only_eq. cbn. lia.
  - rewrite en_intercept_only_eq. cbn. lia.
Qed.

(** C1, at the failing input: on the data with the single response
    [y = 1] and no predictor, the weighted solve with weight 4 returns
    without iterating (for every [solve]) the intercept 2 and the
    residual -1, while the weighted mean of the response is 1; the
    unweighted solve returns the mean 1 and the residual 0. *)
Theorem weighted_fast_path_not_weighted_mean :
  weighted_mean [4] [1] = 1 /\
  (exists en', ENDal.computeCoefsWeighted solve [0] [0] [4] en_intercept_only
               = Some (en', [2], [-1])) /\
  ENDal.computeCoefs solve [0] [0] en_intercept_only = Some (en_intercept_only, [1], [0]).
Proof.
  split; [unfold weighted_mean; cbn; lra|]. split.
  - eexists. apply weighted_intercept_only_run.
  - rewrite computeCoefs_fast_path.
    + rewrite en_intercept_only_eq. run. rewrite mean_singleton.
      unfold store. cbn. repeat f_equal; lra.
    + rewrite en_intercept_only_eq. cbn. lia.
    + rewrite en_intercept_only_eq. cbn. lia.
Qed.

(** C9, at the failing input: the weighted solve of the intercept-only
    data returns with [useWeights] still set (and with the data
    untouched). *)
Theorem weighted_fast_path_keeps_useWeights :
  exists en' coefs resids,
    ENDal.computeCoefsWeighted solve [0] [0] [4] en_intercept_only = Some (en', coefs, resids) /\
    ENDal.useWeights en' = true /\
    ENDal.y en' = ENDal.y en_intercept_only /\
    ENDal.Xtr en' = ENDal.Xtr en_intercept_only.
Proof.
  rewrite weighted_intercept_only_run. generalize en_intercept_only. intros en.
  do 3 eexists. split; [reflexivity|]. cbn. auto.
Qed.

End Degenerate.

Lemma computeCoefs_no_variables_witness :
  ENDal.bufferSizeNvar en_no_variables = 0%nat /\
  ENDal.computeCoefs solve_1x1 [7] [0; 0] en_no_variables
  = Some (en_no_variables, [7], [3; 5]) /\
  ENDal.computeCoefsWeighted solve_1x1 [7] [0; 0] [4; 9] en_no_variables
  = Some (en_no_variables, [7], [3; 5]).
Proof.
  split; [reflexivity|].
  exact (computeCoefs_no_variables solve_1x1 en_no_variables [7] [0; 0] [4; 9] eq_refl).
Defined.

(** *** The loops of [dal] and [minimizePhi] end, and what they leave alone *)

Section Dal.

Variable solve : mat -> vec -> vec.

Lemma getHessBuff_installed keep this :
  installed (ENDal.getHessBuff keep this).2 = installed this.
Proof. unfold ENDal.getHessBuff. destruct (_ || _); reflexivity. Qed.

Lemma evalPhiHess_installed this a beta icpt multFact :
  installed (ENDal.evalPhiHess this a beta icpt multFact).2 = installed this.
Proof.
  unfold ENDal.evalPhiHess.
  destruct (ENDal.useHessBuffer this) eqn:Hb.
  - pose proof (getHessBuff_installed (find beta) this) as Hi.
    destruct (ENDal.getHessBuff (find beta) this) as [buff this1]. cbn in Hi.
    assert (ENDal.intercept this1 = ENDal.intercept this /\
            ENDal.useWeights this1 = ENDal.useWeights this) as [-> ->]
      by (unfold installed in Hi; split; congruence).
    destruct (ENDal.intercept this), (ENDal.useWeights this); exact Hi.
  - destruct (ENDal.intercept this), (ENDal.useWeights this); reflexivity.
Qed.

Lemma lineSearch_iter n this betaOrig interceptOrig cutoff multFact phiVal decr
    stepDir XtrStepDir l :
  ENDal.p_iter (ENDal.lineSearch n this betaOrig interceptOrig cutoff multFact phiVal decr
                                 stepDir XtrStepDir l) = ENDal.p_iter l.
Proof.
  revert l. induction n as [|n IH]; intros l; cbn [ENDal.lineSearch]; [reflexivity|].
  destruct (ENDal.phiAt _ _ _ _ _ _ _ _) as [[beta icpt] phiValStep].
  case_decide; [reflexivity|]. rewrite IH. reflexivity.
Qed.

(** The Newton loop ends within [maxIt + 1] passes. *)
Lemma minimizePhi_loop_ends fuel :
  forall this betaOrig interceptOrig cutoff multFact l,
    (0 < fuel)%nat -> (ENDal.maxIt this - ENDal.p_iter l < Z.of_nat fuel)%Z ->
    exists this' l',
      ENDal.minimizePhi_loop solve fuel this betaOrig interceptOrig cutoff multFact l
      = Some (this', l') /\ installed this' = installed this.
Proof.
  induction fuel as [|fuel IH]; intros this betaOrig interceptOrig cutoff multFact l Hf Hm;
    [lia|].
  cbn [ENDal.minimizePhi_loop].
  destruct (ENDal.phiAt _ _ _ _ _ _ _ _) as [[beta icpt] phiVal].
  case_decide; [eauto|]. case_decide; [eauto|].
  pose proof (evalPhiHess_installed this (ENDal.p_candA l) beta icpt multFact) as Hi.
  destruct (ENDal.evalPhiHess this (ENDal.p_candA l) beta icpt multFact) as [hess this1].
  cbn in Hi.
  assert (ENDal.maxIt this1 = ENDal.maxIt this) as Hmax
    by (unfold installed in Hi; congruence).
  edestruct (IH this1) as (this' & l' & -> & Hi').
  3: { do 2 eexists. split; [reflexivity|]. congruence. }
  - lia.
  - rewrite lineSearch_iter. cbn [ENDal.p_iter]. lia.
Qed.

Lemma minimizePhi_ends this beta icpt :
  exists this' beta' icpt' ok,
    ENDal.minimizePhi solve this beta icpt = Some (this', beta', icpt', ok) /\
    installed this' = installed this.
Proof.
  unfold ENDal.minimizePhi.
  edestruct (minimizePhi_loop_ends (S (Z.to_nat (ENDal.maxIt this)))) as (this' & l' & -> & Hi).
  3: { cbn. do 4 eexists. split; [reflexivity|]. exact Hi. }
  - lia.
  - cbn [ENDal.p_iter]. lia.
Qed.

Lemma updateEta_installed iter aL1Prev this :
  installed (ENDal.updateEta iter aL1Prev this).1 = installed this.
Proof.
  unfold ENDal.updateEta. cbn.
  destruct (ENDal.intercept this); [|reflexivity]. case_decide; reflexivity.
Qed.

(** *** The dual objective over the outer iterations *)

Lemma nonincreasing_snoc (l : list R) (x : R) :
  nonincreasing l -> (forall prev, last l = Some prev -> x <= prev) ->
  nonincreasing (l ++ [x]).
Proof.
  intros Hl Hx k prev cur Hk HSk.
  destruct (decide (S k < length l)%nat) as [Hlt|Hge].
  - rewrite lookup_app_l in Hk by lia. rewrite lookup_app_l in HSk by lia. eauto.
  - pose proof (lookup_lt_Some _ _ _ HSk) as Hlen. rewrite length_app in Hlen. cbn in Hlen.
    assert (S k = length l) as Hk' by lia.
    rewrite lookup_app_r in HSk by lia. rewrite Hk', Nat.sub_diag in HSk.
    injection HSk as <-.
    rewrite lookup_app_l in Hk by lia. apply Hx.
    rewrite last_lookup. rewrite <- Hk'. exact Hk.
Qed.

(** One outer pass: it ends, it prints the value it keeps, and from the
    second pass on that value is at most the one kept before. *)
Lemma dal_pass_spec la updateDenomMult this l :
  exists this' l' line stop,
    ENDal.dal_pass solve la updateDenomMult this l = Some (this', l', line, stop) /\
    installed this' = installed this /\
    ENDal.dbg_dval line = ENDal.d_dualFunVal l' /\
    ((0 < ENDal.d_iter l)%Z -> ENDal.dbg_dval line <= ENDal.d_dualFunVal l) /\
    (stop = false ->
     ENDal.d_iter l' = (ENDal.d_iter l + 1)%Z /\ (ENDal.d_iter l' <= ENDal.maxIt this)%Z).
Proof.
  unfold ENDal.dal_pass.
  set (dual := if decide ((ENDal.d_iter l > 0)%Z /\ _ > _) then _ else _).
  assert ((0 < ENDal.d_iter l)%Z -> dual <= ENDal.d_dualFunVal l) as Hguard.
  { intros Hpos. subst dual. case_decide as Hc; [lra|].
    destruct (Rle_or_lt (ENDal.dualValue this la updateDenomMult) (ENDal.d_dualFunVal l));
      [assumption|]. exfalso. apply Hc. split; [lia | lra]. }
  case_decide.
  { do 4 eexists. repeat (split; [reflexivity || exact Hguard|]). discriminate. }
  case_decide.
  { do 4 eexists. repeat (split; [reflexivity || exact Hguard|]). discriminate. }
  destruct (minimizePhi_ends this (ENDal.d_beta l) (ENDal.d_icpt l))
    as (this1 & beta1 & icpt1 & ok & -> & Hi).
  cbn.
  pose proof (updateEta_installed (ENDal.d_iter l + 1) (ENDal.d_aL1Prev l) this1) as Hu.
  destruct (ENDal.updateEta _ _ this1) as [this2 aL1Prev]. cbn in Hu.
  do 4 eexists. split; [reflexivity|]. split; [congruence|].
  split; [reflexivity|]. split; [exact Hguard|]. intros _. cbn. lia.
Qed.

Lemma dal_loop_spec la updateDenomMult fuel :
  forall this l log,
    (0 < fuel)%nat -> (ENDal.maxIt this - ENDal.d_iter l < Z.of_nat fuel)%Z ->
    (0 <= ENDal.d_iter l)%Z ->
    nonincreasing (ENDal.dbg_dval <$> log) ->
    (forall line, last log = Some line ->
                  (0 < ENDal.d_iter l)%Z /\ ENDal.dbg_dval line = ENDal.d_dualFunVal l) ->
    exists this' l' log',
      ENDal.dal_loop solve fuel la updateDenomMult this l log = Some (this', l', log') /\
      installed this' = installed this /\
      nonincreasing (ENDal.dbg_dval <$> log').
Proof.
  induction fuel as [|fuel IH]; intros this l log Hf Hm Hpos Hmono Hlast; [lia|].
  cbn [ENDal.dal_loop].
  destruct (dal_pass_spec la updateDenomMult this l)
    as (this1 & l1 & line & stop & -> & Hi & Hline & Hguard & Hcont).
  cbn.
  assert (nonincreasing (ENDal.dbg_dval <$> log ++ [line])) as Hmono'.
  { rewrite fmap_app. cbn. apply nonincreasing_snoc; [exact Hmono|].
    intros prev Hprev. rewrite fmap_last in Hprev.
    destruct (last log) as [ln|]; [|discriminate]. injection Hprev as <-.
    destruct (Hlast ln eq_refl) as [Hp ->]. apply Hguard, Hp. }
  destruct stop.
  { do 3 eexists. split; [reflexivity|]. split; assumption. }
  destruct (Hcont eq_refl) as [Hnext Hle].
  assert (ENDal.maxIt this1 = ENDal.maxIt this) as Hmax
    by (unfold installed in Hi; congruence).
  edestruct (IH this1 l1 (log ++ [line])) as (this' & l' & log' & -> & Hi' & Hm').
  6: { do 3 eexists. split; [reflexivity|]. split; [congruence | exact Hm']. }
  - lia.
  - lia.
  - lia.
  - exact Hmono'.
  - intros line' Hl'. rewrite last_snoc in Hl'. injection Hl' as <-. split; [lia | exact Hline].
Qed.

(** [dal] returns. *)
Lemma dal_ends this icpt beta :
  exists this' icpt' beta' log,
    ENDal.dal solve this icpt beta = Some (this', icpt', beta', log) /\
    nonincreasing (ENDal.dbg_dval <$> log).
Proof.
  unfold ENDal.dal. destruct (ENDal.dal_init this icpt beta) as [[this0 icpt0] beta0].
  edestruct (dal_loop_spec (ENDal.nLambda this0 * ENDal.alpha this0)
                           (1 / (ENDal.nLambda this0 * (1 - ENDal.alpha this0)))
                           (S (Z.to_nat (ENDal.maxIt this0))) this0
                           (ENDal.mkDal 0 0 0 beta0 icpt0) [])
    as (this' & l' & log' & -> & Hi & Hmono).
  6: { cbn. do 4 eexists. split; [reflexivity | exact Hmono]. }
  - lia.
  - cbn. lia.
  - cbn. lia.
  - intros k prev cur Hk. discriminate.
  - intros line Hl. discriminate.
Qed.


(** *** The path of [computeCoefs] and [computeCoefsWeighted] that iterates *)

Lemma computeCoefs_main_path (this : ENDal.t) (coefs resids : list R) en' icpt beta log :
  ENDal.bufferSizeNvar this <> 0%nat ->
  ~ (ENDal.bufferSizeNvar this = 1 \/ ENDal.bufferSizeNobs this = 0)%nat ->
  ENDal.dal solve (ENDal.set_useWeights false this) (coefs !!! 0%nat)
            (take (ENDal.bufferSizeNvar this - 1) (drop 1 coefs))
  = Some (en', icpt, beta, log) ->
  ENDal.computeCoefs solve coefs resids this
  = Some (ENDal.set_useWeights false en',
          store 1 beta (<[0%nat := icpt]> coefs),
          store 0 (if ENDal.intercept en'
                   then vsub (vsub_scalar (ENDal.y en') icpt) (matT_vec (ENDal.Xtr en') beta)
                   else vsub (ENDal.y en') (matT_vec (ENDal.Xtr en') beta)) resids).
Proof.
  intros Hn Hf Hd. unfold ENDal.computeCoefs.
  rewrite decide_False by assumption. rewrite decide_False by assumption.
  cbn [ENDal.bufferSizeNvar ENDal.set_useWeights]. rewrite Hd. reflexivity.
Qed.

(** With at least one predictor and one observation the weighted solve
    returns, with the pointers [y] and [Xtr] as they were and
    [useWeights] cleared. *)
Lemma computeCoefsWeighted_main_path (this : ENDal.t) (coefs resids weights : list R) :
  ENDal.bufferSizeNvar this <> 0%nat ->
  ~ (ENDal.bufferSizeNvar this = 1 \/ ENDal.bufferSizeNobs this = 0)%nat ->
  exists en' coefs' resids',
    ENDal.computeCoefsWeighted solve coefs resids weights this = Some (en', coefs', resids') /\
    ENDal.y en' = ENDal.y this /\ ENDal.Xtr en' = ENDal.Xtr this /\
    ENDal.useWeights en' = false.
Proof.
  intros Hn Hf. unfold ENDal.computeCoefsWeighted.
  rewrite decide_False by assumption. cbn. rewrite decide_False by assumption.
  match goal with |- context [ENDal.dal solve ?s ?i ?b] =>
    destruct (dal_ends s i b) as (en1 & icpt1 & beta1 & log1 & -> & _) end.
  cbn. do 3 eexists. split; [reflexivity|]. auto.
Qed.

End Dal.

(** *** [IRWEN::compute] *)

Section Irwen.

Variable NUMERIC_EPS : R.
Variable EN : Type.
Variable en_computeCoefsWeighted : list R -> list R -> list R -> EN -> EN * list R * list R.
Variable en_getStatus : EN -> Z.
Variable updateWeights : list R -> list R.

Abbreviation compute_pass :=
  (IRWEN.compute_pass NUMERIC_EPS EN en_computeCoefsWeighted en_getStatus updateWeights).
Abbreviation compute_loop :=
  (IRWEN.compute_loop NUMERIC_EPS EN en_computeCoefsWeighted en_getStatus updateWeights).

Lemma vnth_take (n j : nat) (l : list R) : (j < n)%nat -> vnth (take n l) j = vnth l j.
Proof.
  intros Hj. unfold vnth. rewrite !nth_lookup. rewrite lookup_take_lt by exact Hj. reflexivity.
Qed.

(** Two vectors that are zero on the first [numVar] entries have no
    change and no norm. *)
Lemma changeAndNorm_zero (numVar : nat) (oldCoef currentCoef : list R) :
  (forall j, (j < numVar)%nat -> vnth oldCoef j = 0 /\ vnth currentCoef j = 0) ->
  IRWEN.changeAndNorm numVar oldCoef currentCoef = (0, 0).
Proof.
  intros Hz. unfold IRWEN.changeAndNorm.
  assert (forall l acc, (forall j, j ∈ l -> (j < numVar)%nat) ->
            foldl (fun '(relChangeVal, norm2Old) j =>
                     let tmp := vnth oldCoef j - vnth currentCoef j in
                     (relChangeVal + tmp * tmp, norm2Old + vnth oldCoef j * vnth oldCoef j))
                  acc l = acc) as Hfold.
  { induction l as [|j l IH]; intros [r n] Hl; [reflexivity|]. cbn.
    destruct (Hz j) as [-> ->]; [apply Hl; left|].
    rewrite IH; [f_equal; lra|]. intros j' Hj'. apply Hl. right. exact Hj'. }
  apply Hfold. intros j Hj. apply elem_of_seq in Hj. lia.
Qed.

(** The pass, with the outputs of the solver named. *)
Lemma compute_pass_eq (this : IRWEN.t EN) (currentCoef residuals : list R) :
  let oldCoef := take (numVar (IRWEN.data this)) currentCoef in
  let '(en', coef', resid') :=
    en_computeCoefsWeighted currentCoef residuals (updateWeights residuals) (IRWEN.en this) in
  let '(change, norm2Old) := IRWEN.changeAndNorm (numVar (IRWEN.data this)) oldCoef coef' in
  exists this' w,
    compute_pass this currentCoef residuals = (this', coef', resid', w) /\
    IRWEN.relChangeVal this' = IRWEN.relChange NUMERIC_EPS (IRWEN.eps this) change norm2Old /\
    IRWEN.iteration this' = (IRWEN.iteration this + 1)%Z /\
    IRWEN.maxIt this' = IRWEN.maxIt this /\ IRWEN.eps this' = IRWEN.eps this /\
    IRWEN.data this' = IRWEN.data this.
Proof.
  unfold IRWEN.compute_pass. cbn.
  destruct (en_computeCoefsWeighted _ _ _ _) as [[en' coef'] resid'].
  destruct (IRWEN.changeAndNorm _ _ _) as [change norm2Old].
  do 2 eexists. repeat split.
Qed.

Lemma relChange_zero_branch (eps change norm2Old : R) :
  norm2Old < NUMERIC_EPS ->
  IRWEN.relChange NUMERIC_EPS eps change norm2Old
  = if decide (change < NUMERIC_EPS) then 0 else 2 * eps.
Proof. intros H. unfold IRWEN.relChange, IRWEN.NUMERICAL_TOLERANCE. rewrite decide_True by exact H. reflexivity. Qed.

(** The rule for the zero vector, for a tolerance that is not negative:
    in a pass of [compute] whose old coefficients have a
    squared norm below the numerical tolerance, [relChangeVal] becomes
    exactly 0 when the squared change is below the tolerance too, and the
    loop then ends with this pass (the tolerance [eps] is a square, hence
    not negative); otherwise it becomes [2 * eps], and the loop goes on
    with one more pass if [eps] is positive and the iteration count is
    below [maxIt].  If the coefficients before the pass and those the
    solver returns are both zero, the loop ends with this pass and
    [relChangeVal] 0. *)
Theorem compute_zero_vector_rule (this : IRWEN.t EN) (currentCoef residuals : list R)
    (warnings : list string) (fuel : nat) :
  0 < NUMERIC_EPS -> 0 <= IRWEN.eps this ->
  let oldCoef := take (numVar (IRWEN.data this)) currentCoef in
  let '(en', coef', resid') :=
    en_computeCoefsWeighted currentCoef residuals (updateWeights residuals) (IRWEN.en this) in
  let '(change, norm2Old) := IRWEN.changeAndNorm (numVar (IRWEN.data this)) oldCoef coef' in
  exists this' w,
    compute_pass this currentCoef residuals = (this', coef', resid', w) /\
    (norm2Old < NUMERIC_EPS ->
     (change < NUMERIC_EPS ->
      IRWEN.relChangeVal this' = 0 /\
      compute_loop (S fuel) this currentCoef residuals warnings
      = Some (this', coef', resid', warnings ++ w)) /\
     (~ change < NUMERIC_EPS ->
      IRWEN.relChangeVal this' = 2 * IRWEN.eps this /\
      (0 < IRWEN.eps this -> (IRWEN.iteration this' < IRWEN.maxIt this')%Z ->
       compute_loop (S fuel) this currentCoef residuals warnings
       = compute_loop fuel this' coef' resid' (warnings ++ w)))) /\
    ((forall j, (j < numVar (IRWEN.data this))%nat ->
                vnth currentCoef j = 0 /\ vnth coef' j = 0) ->
     IRWEN.relChangeVal this' = 0 /\
     compute_loop (S fuel) this currentCoef residuals warnings
     = Some (this', coef', resid', warnings ++ w)).
Proof.
  intros Htol Heps oldCoef. subst oldCoef.
  pose proof (compute_pass_eq this currentCoef residuals) as Hp. cbn zeta in Hp.
  pose proof (changeAndNorm_zero (numVar (IRWEN.data this))
                (take (numVar (IRWEN.data this)) currentCoef)) as Hzero.
  destruct (en_computeCoefsWeighted _ _ _ _) as [[en' coef'] resid'].
  specialize (Hzero coef').
  destruct (IRWEN.changeAndNorm _ _ _) as [change norm2Old].
  destruct Hp as (this' & w & Hpass & Hrel & Hit & Hmax & Heps' & Hdata).
  exists this', w. split; [exact Hpass|].
  assert (IRWEN.relChangeVal this' = 0 ->
          compute_loop (S fuel) this currentCoef residuals warnings
          = Some (this', coef', resid', warnings ++ w)) as Hstop.
  { intros H0. cbn [IRWEN.compute_loop]. rewrite Hpass.
    rewrite decide_False; [reflexivity|]. rewrite H0, Heps'. intros [_ Hgt]. lra. }
  split.
  - intros Hnorm. rewrite (relChange_zero_branch _ _ _ Hnorm) in Hrel. split.
    + intros Hc. rewrite decide_True in Hrel by exact Hc. split; [exact Hrel | apply Hstop, Hrel].
    + intros Hc. rewrite decide_False in Hrel by exact Hc. split; [exact Hrel|].
      intros Hpos Hcap. cbn [IRWEN.compute_loop]. rewrite Hpass.
      rewrite decide_True; [reflexivity|]. rewrite Hrel, Heps'. split; [exact Hcap | lra].
  - intros Hz.
    assert ((change, norm2Old) = (0, 0)) as [= -> ->].
    { apply Hzero. intros j Hj. destruct (Hz j Hj) as [H1 H2].
      rewrite vnth_take by exact Hj. split; assumption. }
    rewrite (relChange_zero_branch _ _ _ Htol) in Hrel.
    rewrite decide_True in Hrel by exact Htol. split; [exact Hrel | apply Hstop, Hrel].
Qed.

(** The tolerance of a driver made by the constructor is a square. *)
Lemma new_eps_nonneg (d : Data) (opts : Options) (solver : EN) :
  0 <= IRWEN.eps (IRWEN.new d opts solver).
Proof. cbn. apply Rle_0_sqr. Qed.

End Irwen.

Lemma irwen_tolerance_zero_eq :
  irwen_tolerance_zero = IRWEN.mk (mkData 1 1 [1] [1]) 10 (0 * 0) [0] tt 0 0.
Proof. reflexivity. Qed.

(** C5, at the failing input: a driver with the tolerance option 0 and
    [maxit = 10], started from the coefficient 0, over a solver that
    returns the coefficient 1.  In the first pass the old coefficients
    have norm 0 and the squared change is 1, not below the numerical
    tolerance; [relChangeVal] is set to [2 * eps], which is 0, and the
    loop ends with this pass, at the iteration count 1 of 10, where the
    comment in the source says that it continues. *)
Lemma compute_tolerance_zero_stops :
  let tol := 1 / 10 ^ 16 in
  IRWEN.changeAndNorm 1 [0] [1] = (0 + (0 - 1) * (0 - 1), 0 + 0 * 0) /\
  0 + 0 * 0 < tol /\ ~ 0 + (0 - 1) * (0 - 1) < tol /\
  exists this',
    IRWEN.compute tol unit constant_solver (fun _ => 0%Z) (fun r => r) (fun _ _ _ _ _ => [0])
                  [0] [0] irwen_tolerance_zero
    = Some (this', [1], [0], []) /\
    IRWEN.relChangeVal this' = 2 * IRWEN.eps this' /\
    IRWEN.iteration this' = 1%Z /\ IRWEN.maxIt this' = 10%Z.
Proof.
  cbn zeta. split; [reflexivity|]. split; [lra|]. split; [lra|].
  rewrite irwen_tolerance_zero_eq. unfold IRWEN.compute. cbn [IRWEN.compute_loop Z.to_nat].
  unfold IRWEN.compute_pass, constant_solver. cbn.
  unfold IRWEN.relChange, IRWEN.NUMERICAL_TOLERANCE.
  rewrite (decide_True (P := 0 + 0 * 0 < _)) by lra.
  rewrite (decide_False (P := 0 + (0 - 1) * (0 - 1) < _)) by lra.
  rewrite decide_False by (cbn; lra).
  eexists. split; [reflexivity|]. cbn. repeat split.
Qed.

(** The rule on the same driver: the first pass takes the branch that
    sets [relChangeVal] to [2 * eps]. *)
Lemma compute_zero_vector_rule_witness :
  exists this' w,
    IRWEN.compute_pass (1 / 10 ^ 16) unit constant_solver (fun _ => 0%Z) (fun r => r)
                       irwen_tolerance_zero [0] [0] = (this', [1], [0], w) /\
    IRWEN.relChangeVal this' = 2 * IRWEN.eps irwen_tolerance_zero.
Proof.
  pose proof (compute_zero_vector_rule (1 / 10 ^ 16) unit constant_solver (fun _ => 0%Z)
                (fun r => r) irwen_tolerance_zero [0] [0] [] 0
                ltac:(lra) (new_eps_nonneg unit _ _ _)) as H.
  cbn in H. destruct H as (this' & w & Hpass & Hzero & _).
  exists this', w. split; [exact Hpass|].
  apply Hzero; lra.
Defined.

(** *** [CDPense::Optimize] *)

Section Optimize.

Context {SLoss PenaltyFunction : Type}
        `{!CDPense.SLossOps SLoss} `{!CDPense.PenaltyOps PenaltyFunction}.
Variable kNumericZero : R.
Variable SoftThreshold : R -> R -> R.

Abbreviation Optimize := (CDPense.Optimize kNumericZero SoftThreshold).
Abbreviation cd_loop := (CDPense.cd_loop kNumericZero SoftThreshold).
Abbreviation never_converges := (CDPense.never_converges kNumericZero SoftThreshold).

(** The loop returns either a converged optimum, or, when no cycle meets
    the test, the warning with the residuals of the final coefficients. *)
Lemma cd_loop_spec n :
  forall iter (this : CDPense.t) p l st,
    let '(optimum, l', st') := cd_loop n iter this p l st in
    CDPense.opt_coefs optimum = CDPense.coefs st' /\
    CDPense.opt_residuals optimum = CDPense.residuals st' /\
    ((CDPense.opt_status optimum = CDPense.kOk /\ CDPense.opt_message optimum = "" /\
      ~ never_converges n iter this p l st)
     \/
     (CDPense.opt_status optimum = CDPense.kWarning /\
      CDPense.opt_message optimum = "Coordinate descent did not converge." /\
      CDPense.opt_residuals optimum = CDPense.Residuals l' (CDPense.opt_coefs optimum) /\
      CDPense.opt_iter optimum = (iter + Z.of_nat n + 1)%Z /\
      never_converges n iter this p l st)).
Proof.
  induction n as [|n IH]; intros iter this p l st.
  - cbn. repeat split. right. repeat split. lia.
  - cbn [CDPense.cd_loop CDPense.never_converges].
    destruct (CDPense.cycle _ _ this p l st) as [l1 st1].
    case_decide as Hc.
    + cbn. repeat split. left. repeat split. tauto.
    + match goal with |- context [cd_loop n ?i this p l1 ?s] =>
        specialize (IH i this p l1 s); destruct (cd_loop n i this p l1 s) as [[o l2] st2] end.
      destruct IH as (Hco & Hre & [(Hs & Hm & Hn) | (Hs & Hm & Hr & Hi & Hn)]).
      * split; [exact Hco|]. split; [exact Hre|]. left. repeat split; try assumption. tauto.
      * split; [exact Hco|]. split; [exact Hre|]. right. repeat split; try assumption. lia.
Qed.

(** C4: [Optimize] throws (a [logic_error]) exactly when the loss or the
    penalty is not set.  With both set it returns an optimum for every
    [max_it] and every state; if no cycle meets the test on the squared
    change of the objective, that optimum has the warning status and the
    message "Coordinate descent did not converge.", carries the
    coefficients of the final state, and its residuals are recomputed from
    these coefficients. *)
Theorem Optimize_throws_iff_not_configured (max_it : Z) (this : CDPense.t) :
  ((exists e, Optimize max_it this = inl e) <->
   CDPense.loss_ this = None \/ CDPense.penalty_ this = None) /\
  (forall l p,
     CDPense.loss_ this = Some l -> CDPense.penalty_ this = Some p ->
     exists optimum this',
       Optimize max_it this = inr (optimum, this') /\
       CDPense.opt_coefs optimum = CDPense.coefs (CDPense.state_ this') /\
       (let '(this0, l0) := CDPense.Optimize_prepare l p this in
        never_converges (Z.to_nat max_it) 0 this0 p l0 (CDPense.state_ this0) ->
        CDPense.opt_status optimum = CDPense.kWarning /\
        CDPense.opt_message optimum = "Coordinate descent did not converge." /\
        exists l', CDPense.loss_ this' = Some l' /\
                   CDPense.opt_residuals optimum
                   = CDPense.Residuals l' (CDPense.opt_coefs optimum))).
Proof.
  unfold CDPense.Optimize. split.
  - destruct (CDPense.loss_ this) as [l|], (CDPense.penalty_ this) as [p|].
    + split; [|intros [?|?]; discriminate].
      intros [e He]. destruct (CDPense.Optimize_prepare l p this) as [this0 l0].
      destruct (CDPense.cd_loop _ _ _ _ _ _ _ _) as [[o l1] st1]. discriminate.
    + split; eauto.
    + split; eauto.
    + split; eauto.
  - intros l p -> ->.
    destruct (CDPense.Optimize_prepare l p this) as [this0 l0].
    pose proof (cd_loop_spec (Z.to_nat max_it) 0 this0 p l0 (CDPense.state_ this0)) as Hl.
    destruct (CDPense.cd_loop _ _ _ _ _ _ _ _) as [[o l1] st1].
    destruct Hl as (Hco & Hre & Hcase).
    do 2 eexists. split; [reflexivity|]. split; [exact Hco|].
    intros Hn. destruct Hcase as [(_ & _ & Hnot) | (Hs & Hm & Hr & _ & _)]; [tauto|].
    split; [exact Hs|]. split; [exact Hm|]. exists l1. split; [reflexivity | exact Hr].
Qed.

End Optimize.

Lemma Optimize_throws_iff_not_configured_witness :
  CDPense.loss_ cd_constant = Some tt /\ CDPense.penalty_ cd_constant = Some tt /\
  exists optimum this',
    CDPense.Optimize (1 / 1000000) softThreshold 1 cd_constant = inr (optimum, this') /\
    CDPense.opt_status optimum = CDPense.kWarning /\
    CDPense.opt_message optimum = "Coordinate descent did not converge.".
Proof.
  split; [reflexivity|]. split; [reflexivity|].
  destruct (proj2 (Optimize_throws_iff_not_configured (1 / 1000000) softThreshold 1
                     cd_constant) tt tt eq_refl eq_refl)
    as (optimum & this' & Hrun & _ & Hwarn).
  exists optimum, this'. split; [exact Hrun|].
  cbn in Hwarn.
  destruct (decide (1%nat = 0%nat)) as [?|_]; [lia|]. cbn in Hwarn.
  destruct (decide (1%nat = 0%nat)) as [?|_]; [lia|]. cbn in Hwarn.
  destruct Hwarn as (Hs & Hm & _); [|split; assumption].
  change (Z.to_nat 1) with 1%nat. cbn. split; [lra | exact I].
Defined.

(** *** [softThreshold] *)

(** C8: for every real [z] and every threshold [gamma >= 0],
    [softThreshold z gamma] is [sign(z) * max(0, |z| - gamma)], and
    [vecSoftThreshold] applies this operator to every element of its
    argument (and to nothing else: the length is kept). *)
Theorem softThreshold_is_prox (gamma : R) :
  0 <= gamma ->
  (forall z, softThreshold z gamma = sign z * Rmax 0 (Rabs z - gamma)) /\
  (forall v, vecSoftThreshold v gamma
             = map (fun z => sign z * Rmax 0 (Rabs z - gamma)) v).
Proof.
  intros Hg.
  assert (H1 : forall z, softThreshold z gamma = sign z * Rmax 0 (Rabs z - gamma)).
  { intros z. unfold softThreshold, sign, Rmax, Rabs.
    destruct (Rcase_abs z); repeat case_decide; destruct (Rle_dec _ _); lra. }
  split; [exact H1|].
  intros v. unfold vecSoftThreshold. apply map_ext. intros z. apply H1.
Qed.

Lemma softThreshold_is_prox_witness :
  0 <= 1 /\ softThreshold 3 1 = sign 3 * Rmax 0 (Rabs 3 - 1).
Proof.
  split; [lra|]. apply (proj1 (softThreshold_is_prox 1 ltac:(lra))).
Defined.


(** *** The Hessian buffer *)

Section Buffer.

Lemma any_diff_false (keep key : list nat) :
  length keep = length key -> uwords keep -> uwords key ->
  ENDal.any_diff keep key = false <-> keep = key.
Proof.
  unfold ENDal.any_diff. revert key.
  induction keep as [|k keep IH]; intros [|k' key] Hlen Hk Hk'; try discriminate.
  - split; reflexivity.
  - apply Forall_cons in Hk as [Hb Hk]. apply Forall_cons in Hk' as [Hb' Hk'].
    cbn. rewrite orb_false_iff, negb_false_iff, Z.eqb_eq.
    rewrite (IH key) by (try assumption; cbn in Hlen; lia).
    unfold ENDal.uword_sub. split.
    + intros [Hd ->]. f_equal.
      destruct (decide (k' <= k)%nat).
      * rewrite Z.mod_small in Hd by lia. lia.
      * assert (((Z.of_nat k - Z.of_nat k') mod 2 ^ 64
                 = Z.of_nat k - Z.of_nat k' + 2 ^ 64)%Z) as Hm; [|lia].
        symmetry. apply Z.mod_unique with (q := (-1)%Z); lia.
    + intros [= -> ->]. split; [|reflexivity]. rewrite Z.sub_diag. reflexivity.
Qed.

(** [getHessBuff] recomputes the buffer exactly when the key changes, and
    leaves the new key in the object. *)
Lemma getHessBuff_spec (keep : list nat) (this : ENDal.t) :
  uwords keep -> uwords (ENDal.hessBuffKeep this) ->
  ENDal.getHessBuff keep this
  = if decide (keep = ENDal.hessBuffKeep this) then (ENDal.hessBuff this, this)
    else (ENDal.hess_of (ENDal.Xtr this) keep,
          ENDal.set_hessBuffKeep keep
            (ENDal.set_hessBuff (ENDal.hess_of (ENDal.Xtr this) keep) this)).
Proof.
  intros Hk Hk'. unfold ENDal.getHessBuff.
  destruct (decide (length keep = length (ENDal.hessBuffKeep this))) as [Hlen|Hlen].
  - rewrite bool_decide_eq_false_2 by tauto. cbn [orb].
    pose proof (any_diff_false keep _ Hlen Hk Hk') as Hd.
    destruct (ENDal.any_diff keep (ENDal.hessBuffKeep this)).
    + rewrite decide_False; [reflexivity|]. intros He. apply Hd in He. discriminate.
    + rewrite decide_True; [reflexivity|]. apply Hd. reflexivity.
  - rewrite bool_decide_eq_true_2 by exact Hlen. cbn [orb].
    rewrite decide_False; [reflexivity|]. intros He. apply Hlen. rewrite He. reflexivity.
Qed.

(** On a coherent buffer [getHessBuff] returns the matrix of [keep] for
    the current [Xtr], and the buffer stays coherent. *)
Lemma getHessBuff_coherent (keep : list nat) (this : ENDal.t) :
  uwords keep -> uwords (ENDal.hessBuffKeep this) -> coherent this ->
  (ENDal.getHessBuff keep this).1 = ENDal.hess_of (ENDal.Xtr this) keep /\
  ENDal.hessBuffKeep (ENDal.getHessBuff keep this).2 = keep /\
  coherent (ENDal.getHessBuff keep this).2.
Proof.
  intros Hk Hk' Hc. rewrite getHessBuff_spec by assumption. unfold coherent in *.
  case_decide as He; cbn.
  - subst keep. auto.
  - auto.
Qed.

(** On a coherent buffer [evalPhiHess] returns the same matrix with the
    buffer as without it. *)
Lemma evalPhiHess_transparent (this : ENDal.t) (a beta : list R) (icpt multFact : R) :
  uwords (find beta) -> uwords (ENDal.hessBuffKeep this) -> coherent this ->
  (ENDal.evalPhiHess this a beta icpt multFact).1
  = (ENDal.evalPhiHess (ENDal.set_useHessBuffer false this) a beta icpt multFact).1.
Proof.
  intros Hk Hk' Hc. unfold ENDal.evalPhiHess. cbn.
  destruct (ENDal.useHessBuffer this).
  - rewrite getHessBuff_spec by assumption. unfold coherent in Hc.
    case_decide as He; cbn.
    + rewrite Hc, <- He. destruct (ENDal.intercept this), (ENDal.useWeights this); reflexivity.
    + destruct (ENDal.intercept this), (ENDal.useWeights this); reflexivity.
  - destruct (ENDal.intercept this), (ENDal.useWeights this); reflexivity.
Qed.

(** [setData] leaves a coherent buffer when the buffer is in use. *)
Lemma setData_coherent (data : Data) (this : ENDal.t) :
  ENDal.useHessBuffer this = true -> coherent (ENDal.setData data this).
Proof.
  intros Hb.
  assert (forall X : mat, ENDal.hess_of X [] = zeros (n_cols X) (n_cols X)) as Hempty
    by reflexivity.
  unfold ENDal.setData, coherent.
  repeat case_decide; cbn in *; rewrite Hb; cbn; rewrite Hempty; cbn;
    f_equal; lia.
Qed.

End Buffer.

(** *** Worked runs *)

(** The functions of the solver are evaluated call by call, so that a
    result is computed before it is used. *)
Arguments ENDal.fullObjectiveFun : simpl never.
Arguments ENDal.dualValue : simpl never.
Arguments ENDal.phiAt : simpl never.
Arguments ENDal.evalPhiGrad : simpl never.
Arguments ENDal.evalPhiHess : simpl never.
Arguments ENDal.getHessBuff : simpl never.
Arguments ENDal.lineSearch : simpl never.
Arguments ENDal.updateEta : simpl never.
Arguments ENDal.minimizePhi_loop : simpl never.
Arguments ENDal.minimizePhi : simpl never.
Arguments ENDal.dal_pass : simpl never.
Arguments ENDal.dal_loop : simpl never.
Arguments ENDal.dal_init : simpl never.
Arguments ENDal.dal : simpl never.
Arguments solve_1x1 : simpl never.
Arguments squaredL2Norm : simpl never.
Arguments frac : simpl never.

Lemma lineSearch_S n this betaOrig interceptOrig cutoff multFact phiVal decr
    stepDir XtrStepDir l :
  ENDal.lineSearch (S n) this betaOrig interceptOrig cutoff multFact phiVal decr
                   stepDir XtrStepDir l
  = let '(beta, icpt, phiValStep) :=
      ENDal.phiAt this betaOrig interceptOrig cutoff multFact
                  (ENDal.p_candA l) (ENDal.p_Xtra l) (ENDal.p_icpt l) in
    if decide (phiValStep
               < phiVal - ENDal.LINESEARCH_STEP_CONDITION * ENDal.p_stepSize l * decr) then
      ENDal.mkPhi (ENDal.p_iter l) (ENDal.p_stepSize l) (ENDal.p_candA l) (ENDal.p_Xtra l)
                  beta icpt
    else
      let stepSizePrev := ENDal.p_stepSize l in
      let stepSize := ENDal.p_stepSize l * ENDal.LINESEARCH_STEPSIZE_MULTIPLIER in
      let candA := vsub (ENDal.p_candA l) (vscale (stepSize - stepSizePrev) stepDir) in
      let Xtra := vsub (ENDal.p_Xtra l) (vscale (stepSize - stepSizePrev) XtrStepDir) in
      ENDal.lineSearch n this betaOrig interceptOrig cutoff multFact phiVal decr
                       stepDir XtrStepDir
                       (ENDal.mkPhi (ENDal.p_iter l) stepSize candA Xtra beta icpt).
Proof. reflexivity. Qed.

Lemma frac_eq (n : Z) (d : positive) : frac n d = Q2R (Qmake n d).
Proof. reflexivity. Qed.

(** Replaces the closed arithmetic expression [t] by its value. *)
Ltac norm_real_at t :=
  let e := reify t in
  let q := eval vm_compute in (Qred (cQ e)) in
  lazymatch q with
  | Qmake ?n 1%positive => replace t with (IZR n) by closed_real
  | Qmake ?n ?d => replace t with (frac n d) by (rewrite frac_eq; closed_real)
  end.

Ltac normalise_reals :=
  repeat match goal with
  | |- context [Q2R ?q] => norm_real_at (Q2R q)
  | |- context [Rplus ?a ?b] => norm_real_at (Rplus a b)
  | |- context [Rminus ?a ?b] => norm_real_at (Rminus a b)
  | |- context [Rmult ?a ?b] => norm_real_at (Rmult a b)
  | |- context [Rdiv ?a ?b] => norm_real_at (Rdiv a b)
  | |- context [Ropp ?a] => norm_real_at (Ropp a)
  | |- context [Rinv ?a] => norm_real_at (Rinv a)
  | |- context [Rabs ?a] => norm_real_at (Rabs a)
  end.

Lemma ENDal_eta (s : ENDal.t) :
  s = ENDal.mk (ENDal.intercept s) (ENDal.status s) (ENDal.statusMessage s) (ENDal.maxIt s) (ENDal.eps s) (ENDal.warmStart s) (ENDal.etaStart s) (ENDal.etaStartNumerator s) (ENDal.etaMultiplier s) (ENDal.useHessBuffer s) (ENDal.bufferSizeNobs s) (ENDal.bufferSizeNvar s) (ENDal.y s) (ENDal.Xtr s) (ENDal.useWeights s) (ENDal.sqrtWeights s) (ENDal.sqrtWeightsOuter s) (ENDal.lambda s) (ENDal.alpha s) (ENDal.nLambda s) (ENDal.eta_0 s) (ENDal.eta_1 s) (ENDal.a s) (ENDal.hessBuff s) (ENDal.hessBuffKeep s).
Proof. destruct s. reflexivity. Qed.

(** Brings the objects of the goal to the form [ENDal.mk ...]. *)
Ltac norm_states :=
  repeat match goal with
  | |- context [ENDal.set_status ?v ?s] => rewrite (ENDal_eta (ENDal.set_status v s)); cbn
  | |- context [ENDal.set_statusMessage ?v ?s] => rewrite (ENDal_eta (ENDal.set_statusMessage v s)); cbn
  | |- context [ENDal.set_maxIt ?v ?s] => rewrite (ENDal_eta (ENDal.set_maxIt v s)); cbn
  | |- context [ENDal.set_eps ?v ?s] => rewrite (ENDal_eta (ENDal.set_eps v s)); cbn
  | |- context [ENDal.set_warmStart ?v ?s] => rewrite (ENDal_eta (ENDal.set_warmStart v s)); cbn
  | |- context [ENDal.set_etaStart ?v ?s] => rewrite (ENDal_eta (ENDal.set_etaStart v s)); cbn
  | |- context [ENDal.set_etaStartNumerator ?v ?s] => rewrite (ENDal_eta (ENDal.set_etaStartNumerator v s)); cbn
  | |- context [ENDal.set_etaMultiplier ?v ?s] => rewrite (ENDal_eta (ENDal.set_etaMultiplier v s)); cbn
  | |- context [ENDal.set_useHessBuffer ?v ?s] => rewrite (ENDal_eta (ENDal.set_useHessBuffer v s)); cbn
  | |- context [ENDal.set_bufferSizeNobs ?v ?s] => rewrite (ENDal_eta (ENDal.set_bufferSizeNobs v s)); cbn
  | |- context [ENDal.set_bufferSizeNvar ?v ?s] => rewrite (ENDal_eta (ENDal.set_bufferSizeNvar v s)); cbn
  | |- context [ENDal.set_y ?v ?s] => rewrite (ENDal_eta (ENDal.set_y v s)); cbn
  | |- context [ENDal.set_Xtr ?v ?s] => rewrite (ENDal_eta (ENDal.set_Xtr v s)); cbn
  | |- context [ENDal.set_useWeights ?v ?s] => rewrite (ENDal_eta (ENDal.set_useWeights v s)); cbn
  | |- context [ENDal.set_sqrtWeights ?v ?s] => rewrite (ENDal_eta (ENDal.set_sqrtWeights v s)); cbn
  | |- context [ENDal.set_sqrtWeightsOuter ?v ?s] => rewrite (ENDal_eta (ENDal.set_sqrtWeightsOuter v s)); cbn
  | |- context [ENDal.set_lambda ?v ?s] => rewrite (ENDal_eta (ENDal.set_lambda v s)); cbn
  | |- context [ENDal.set_alpha ?v ?s] => rewrite (ENDal_eta (ENDal.set_alpha v s)); cbn
  | |- context [ENDal.set_nLambda ?v ?s] => rewrite (ENDal_eta (ENDal.set_nLambda v s)); cbn
  | |- context [ENDal.set_eta_0 ?v ?s] => rewrite (ENDal_eta (ENDal.set_eta_0 v s)); cbn
  | |- context [ENDal.set_eta_1 ?v ?s] => rewrite (ENDal_eta (ENDal.set_eta_1 v s)); cbn
  | |- context [ENDal.set_a ?v ?s] => rewrite (ENDal_eta (ENDal.set_a v s)); cbn
  | |- context [ENDal.set_hessBuff ?v ?s] => rewrite (ENDal_eta (ENDal.set_hessBuff v s)); cbn
  | |- context [ENDal.set_hessBuffKeep ?v ?s] => rewrite (ENDal_eta (ENDal.set_hessBuffKeep v s)); cbn
  end.

(** Computes the closed integers of the goal. *)
Ltac normalise_ints :=
  repeat match goal with
  | |- context [Z.to_nat ?z] =>
    let n := eval vm_compute in (Z.to_nat z) in change (Z.to_nat z) with n
  | |- context [Z.add ?a ?b] =>
    let n := eval vm_compute in (Z.add a b) in change (Z.add a b) with n
  | |- context [Z.eqb ?a ?b] =>
    let n := eval vm_compute in (Z.eqb a b) in change (Z.eqb a b) with n
  end.

Ltac simp :=
  cbn; normalise_ints; rewrite ?squaredL2Norm_dot;
  unfold softThreshold, mean, outer, each_row_schur, gram, rows, zeros, diag_add, mscale,
    madd_scalar, madd, shed_row0, mat_init, at_, ENDal.LINESEARCH_MAX_STEP,
    ENDal.LINESEARCH_STEP_CONDITION, ENDal.LINESEARCH_STEPSIZE_MULTIPLIER;
  cbn; norm_states; normalise_reals.

Ltac eval_call t unfolder :=
  let T := type of t in
  let v := fresh "v" in
  let H := fresh "H" in
  evar (v : T);
  assert (H : t = v) by (subst v; unfolder; reflexivity);
  subst v; rewrite H; clear H.

Lemma dal_loop_S fuel la updateDenomMult this l log :
  ENDal.dal_loop solve_1x1 (S fuel) la updateDenomMult this l log
  = '(this, l, line, stop) ← ENDal.dal_pass solve_1x1 la updateDenomMult this l;
    if stop : bool then Some (this, l, log ++ [line])
    else ENDal.dal_loop solve_1x1 fuel la updateDenomMult this l (log ++ [line]).
Proof. reflexivity. Qed.

Lemma minimizePhi_loop_S fuel this betaOrig interceptOrig cutoff multFact l :
  ENDal.minimizePhi_loop solve_1x1 (S fuel) this betaOrig interceptOrig cutoff multFact l
  = let '(beta, icpt, phiVal) :=
      ENDal.phiAt this betaOrig interceptOrig cutoff multFact
                  (ENDal.p_candA l) (ENDal.p_Xtra l) (ENDal.p_icpt l) in
    let phiGradient := ENDal.evalPhiGrad this (ENDal.p_candA l) beta icpt multFact in
    let iter := (ENDal.p_iter l + 1)%Z in
    if decide (iter > ENDal.maxIt this)%Z then
      Some (this, ENDal.mkPhi iter (ENDal.p_stepSize l) (ENDal.p_candA l) (ENDal.p_Xtra l)
                              beta icpt)
    else
      let normGradient := squaredL2Norm phiGradient in
      let threshold := (1 / ENDal.eta_0 this) * squaredL2Norm (vsub betaOrig beta) in
      let threshold :=
        if ENDal.intercept this then
          let normDiffInt := interceptOrig - icpt in
          threshold + (1 / ENDal.eta_1 this) * normDiffInt * normDiffInt
        else threshold in
      let threshold :=
        if decide (threshold < ENDal.eps this) then 0.5 * ENDal.eps this else threshold in
      if decide ((iter > 1)%Z /\ normGradient < threshold) then
        Some (this, ENDal.mkPhi iter (ENDal.p_stepSize l) (ENDal.p_candA l) (ENDal.p_Xtra l)
                                beta icpt)
      else
        let '(phiHessian, this) :=
          ENDal.evalPhiHess this (ENDal.p_candA l) beta icpt multFact in
        let stepDir := solve_1x1 phiHessian phiGradient in
        let decr := dot stepDir phiGradient in
        let XtrStepDir := mat_vec (ENDal.Xtr this) stepDir in
        let candA := vsub (ENDal.p_candA l) stepDir in
        let Xtra := vsub (ENDal.p_Xtra l) XtrStepDir in
        ENDal.minimizePhi_loop solve_1x1 fuel this betaOrig interceptOrig cutoff multFact
          (ENDal.lineSearch ENDal.LINESEARCH_MAX_STEP this betaOrig interceptOrig cutoff
                            multFact phiVal decr stepDir XtrStepDir
                            (ENDal.mkPhi iter 1 candA Xtra beta icpt)).
Proof. reflexivity. Qed.

Ltac exec :=
  simp;
  repeat first
    [ progress (repeat decide_closed)
    | match goal with
      | |- context [ENDal.fullObjectiveFun ?a ?b ?c] =>
        eval_call (ENDal.fullObjectiveFun a b c) ltac:(unfold ENDal.fullObjectiveFun; exec)
      | |- context [ENDal.dualValue ?a ?b ?c] =>
        eval_call (ENDal.dualValue a b c) ltac:(unfold ENDal.dualValue; exec)
      | |- context [ENDal.phiAt ?a ?b ?c ?d ?e ?f ?g ?h] =>
        eval_call (ENDal.phiAt a b c d e f g h) ltac:(unfold ENDal.phiAt; exec)
      | |- context [ENDal.evalPhiGrad ?a ?b ?c ?d ?e] =>
        eval_call (ENDal.evalPhiGrad a b c d e) ltac:(unfold ENDal.evalPhiGrad; exec)
      | |- context [ENDal.getHessBuff ?a ?b] =>
        eval_call (ENDal.getHessBuff a b)
                  ltac:(unfold ENDal.getHessBuff, ENDal.any_diff, ENDal.uword_sub,
                          ENDal.hess_of; exec)
      | |- context [ENDal.evalPhiHess ?a ?b ?c ?d ?e] =>
        eval_call (ENDal.evalPhiHess a b c d e)
                  ltac:(unfold ENDal.evalPhiHess, ENDal.hess_of; exec)
      | |- context [solve_1x1 ?a ?b] =>
        eval_call (solve_1x1 a b) ltac:(unfold solve_1x1; exec)
      | |- context [ENDal.lineSearch (S ?n) ?a ?b ?c ?d ?e ?f ?g ?h ?i ?j] =>
        eval_call (ENDal.lineSearch (S n) a b c d e f g h i j)
                  ltac:(rewrite lineSearch_S; exec)
      | |- context [ENDal.updateEta ?a ?b ?c] =>
        eval_call (ENDal.updateEta a b c) ltac:(unfold ENDal.updateEta; exec)
      | |- context [ENDal.dal_init ?a ?b ?c] =>
        eval_call (ENDal.dal_init a b c) ltac:(unfold ENDal.dal_init; exec)
      | |- context [ENDal.minimizePhi_loop solve_1x1 (S ?n) ?a ?b ?c ?d ?e ?f] =>
        eval_call (ENDal.minimizePhi_loop solve_1x1 (S n) a b c d e f)
                  ltac:(rewrite minimizePhi_loop_S; exec)
      | |- context [ENDal.minimizePhi solve_1x1 ?a ?b ?c] =>
        eval_call (ENDal.minimizePhi solve_1x1 a b c) ltac:(unfold ENDal.minimizePhi; exec)
      | |- context [ENDal.dal_pass solve_1x1 ?a ?b ?c ?d] =>
        eval_call (ENDal.dal_pass solve_1x1 a b c d) ltac:(unfold ENDal.dal_pass; exec)
      | |- context [ENDal.dal_loop solve_1x1 (S ?n) ?a ?b ?c ?d ?e] =>
        eval_call (ENDal.dal_loop solve_1x1 (S n) a b c d e)
                  ltac:(rewrite dal_loop_S; exec)
      | |- context [ENDal.dal solve_1x1 ?a ?b ?c] =>
        eval_call (ENDal.dal solve_1x1 a b c) ltac:(unfold ENDal.dal; exec)
      end
    | progress simp ].


Ltac finish := unfold frac; first [reflexivity | repeat f_equal; closed_real].

Lemma en_ridge_eq :
  en_ridge
  = ENDal.mk false 0 "" 1 (1 / 100000) false 1 0.01 2 true 1 2 [1] (mkmat 1 1 [1]) false
             [1] (mkmat 0 0 []) 1 0 0 0 0 [-1] (mkmat 1 1 [0]) [].
Proof. reflexivity. Qed.

Lemma ridge_first_solve :
  ENDal.computeCoefsWeighted solve_1x1 [0; 0] [0] [1] en_ridge
  = Some (en_ridge_solved, [0; 1 / 3], [2 / 3]).
Proof.
  rewrite en_ridge_eq. unfold ENDal.computeCoefsWeighted. simp. rewrite sqrt_1.
  exec. finish.
Qed.

Lemma ridge_second_solve :
  exists en2,
    ENDal.computeCoefsWeighted solve_1x1 [0; 1 / 3] [2 / 3] [4] en_ridge_solved
    = Some (en2, [0; 22 / 75], [53 / 75]).
Proof.
  eexists. unfold en_ridge_solved, ENDal.computeCoefsWeighted. simp. rewrite sqrt_4.
  exec. finish.
Qed.

Lemma en_ridge_solved_no_buffer :
  ENDal.setOptions no_buffer en_ridge_solved = ENDal.set_useHessBuffer false en_ridge_solved.
Proof. reflexivity. Qed.

Lemma ridge_second_solve_no_buffer :
  exists en2,
    ENDal.computeCoefsWeighted solve_1x1 [0; 1 / 3] [2 / 3] [4]
                               (ENDal.setOptions no_buffer en_ridge_solved)
    = Some (en2, [0; 2 / 3], [1 / 3]).
Proof.
  eexists. rewrite en_ridge_solved_no_buffer.
  unfold en_ridge_solved, ENDal.computeCoefsWeighted. simp. rewrite sqrt_4.
  exec. finish.
Qed.

(** C3, at the failing input: a solver without intercept ([maxit = 1], no
    warm start, first step size 1, [alpha = 0], [lambda = 1]) on the one
    observation [x = 1], [y = 1].  The weighted solve with the weight 1
    leaves the key [0] and the matrix [1] in the buffer.  The next
    weighted solve, with the weight 4, asks for the same key, for which
    the current (weighted) [Xtr = 2] has the matrix [4]: with the buffer
    it gets the old matrix and returns the slope 22/75, without the
    buffer it returns the slope 2/3. *)
Theorem hessBuff_stale_after_reweighting :
  ENDal.computeCoefsWeighted solve_1x1 [0; 0] [0] [1] en_ridge
  = Some (en_ridge_solved, [0; 1 / 3], [2 / 3]) /\
  ENDal.hessBuffKeep en_ridge_solved = [0%nat] /\
  ENDal.hessBuff en_ridge_solved = mkmat 1 1 [1] /\
  ENDal.hess_of (each_row_schur (ENDal.Xtr en_ridge_solved) (vsqrt [4])) [0%nat]
  = mkmat 1 1 [sqrt 4 * sqrt 4] /\
  (exists en2,
     ENDal.computeCoefsWeighted solve_1x1 [0; 1 / 3] [2 / 3] [4] en_ridge_solved
     = Some (en2, [0; 22 / 75], [53 / 75])) /\
  (exists en2,
     ENDal.computeCoefsWeighted solve_1x1 [0; 1 / 3] [2 / 3] [4]
                                (ENDal.setOptions no_buffer en_ridge_solved)
     = Some (en2, [0; 2 / 3], [1 / 3])).
Proof.
  split; [exact ridge_first_solve|]. split; [reflexivity|]. split; [reflexivity|].
  split.
  - unfold ENDal.hess_of, gram, rows, each_row_schur, mat_init, sum_n, at_. cbn.
    repeat f_equal. lra.
  - split; [exact ridge_second_solve | exact ridge_second_solve_no_buffer].
Qed.

Lemma en_eta_eq :
  en_eta
  = ENDal.mk true 0 "" 2 (1 / 100000) true 1 0.01 2 true 1 2 [0] (mkmat 1 1 [1]) false
             [1] (mkmat 0 0 []) 1 0 0 0 0 [- 0] (mkmat 1 1 [0]) [].
Proof. reflexivity. Qed.

Lemma eta_run_init :
  ENDal.dal_init (ENDal.set_useWeights false en_eta) 0 [-1] = (en_eta_0, 1, [-1]).
Proof. rewrite en_eta_eq. exec. unfold en_eta_0. finish. Qed.

Lemma eta_run_pass_1 :
  ENDal.dal_pass solve_1x1 0 1 en_eta_0 (ENDal.mkDal 0 0 0 [-1] 1)
  = Some (en_eta_1, ENDal.mkDal 1 0 (-1 / 5) [-3 / 5] (4 / 5),
          ENDal.mkDebug 0 (1 / 2) 0 1 1 1, false).
Proof.
  unfold en_eta_0. exec. unfold en_eta_1, en_eta_0. cbn. finish.
Qed.

Lemma eta_run_pass_2 :
  ENDal.dal_pass solve_1x1 0 1 en_eta_1 (ENDal.mkDal 1 0 (-1 / 5) [-3 / 5] (4 / 5))
  = Some (en_eta_2, ENDal.mkDal 2 0 (-9 / 55) [-17 / 55] (26 / 55),
          ENDal.mkDebug 1 (1 / 5) 0 1 2 2, false).
Proof.
  unfold en_eta_1, en_eta_0. exec. unfold en_eta_2, en_eta_1, en_eta_0. cbn.
  finish.
Qed.

Lemma eta_run_pass_3 :
  ENDal.dal_pass solve_1x1 0 1 en_eta_2 (ENDal.mkDal 2 0 (-9 / 55) [-17 / 55] (26 / 55))
  = Some (en_eta_2, ENDal.mkDal 3 0 (-9 / 55) [-17 / 55] (26 / 55),
          ENDal.mkDebug 2 (37 / 605) 0 1 4 4, true).
Proof. unfold en_eta_2, en_eta_1, en_eta_0. exec. finish. Qed.

(** The call of [dal] that [computeCoefs] makes on [en_eta] from the
    coefficients [0; -1]: three passes, the third one leaves the loop. *)
Lemma eta_run :
  ENDal.dal solve_1x1 (ENDal.set_useWeights false en_eta) 0 [-1]
  = Some (ENDal.set_statusMessage "algorithm did not converge" (ENDal.set_status 1 en_eta_2),
          26 / 55, [-17 / 55],
          [ENDal.mkDebug 0 (1 / 2) 0 1 1 1; ENDal.mkDebug 1 (1 / 5) 0 1 2 2;
           ENDal.mkDebug 2 (37 / 605) 0 1 4 4]).
Proof.
  unfold ENDal.dal. rewrite eta_run_init.
  replace (ENDal.nLambda en_eta_0 * ENDal.alpha en_eta_0) with 0 by (cbn; lra).
  replace (1 / (ENDal.nLambda en_eta_0 * (1 - ENDal.alpha en_eta_0))) with 1
    by (cbn; lra).
  change (Z.to_nat (ENDal.maxIt en_eta_0)) with 2%nat.
  rewrite dal_loop_S, eta_run_pass_1. cbn [mbind option_bind].
  rewrite dal_loop_S, eta_run_pass_2. cbn [mbind option_bind].
  rewrite dal_loop_S, eta_run_pass_3. cbn [mbind option_bind app].
  reflexivity.
Qed.

Lemma eta_run_final :
  let en' := ENDal.set_statusMessage "algorithm did not converge"
               (ENDal.set_status 1 en_eta_2) in
  ENDal.set_useWeights false en' = en' /\ ENDal.intercept en' = true /\
  ENDal.y en' = [0] /\ ENDal.Xtr en' = mkmat 1 1 [1].
Proof. repeat split. Qed.

Lemma eta_run_computeCoefs :
  ENDal.computeCoefs solve_1x1 [0; -1] [0] en_eta
  = Some (ENDal.set_statusMessage "algorithm did not converge" (ENDal.set_status 1 en_eta_2),
          [26 / 55; -17 / 55], [-9 / 55]).
Proof.
  rewrite (computeCoefs_main_path solve_1x1 en_eta [0; -1] [0] _ _ _ _
             ltac:(rewrite en_eta_eq; cbn; lia) ltac:(rewrite en_eta_eq; cbn; lia) eta_run).
  destruct eta_run_final as (-> & -> & -> & ->).
  unfold store, vsub, vsub_scalar, matT_vec, sum_n, at_. cbn.
  repeat f_equal. closed_real.
Qed.

(** The second update of [eta] in that run. *)
Lemma eta_run_update_2 :
  ENDal.updateEta 2 (-1 / 5) (ENDal.set_a [-9 / 55] en_eta_1) = (en_eta_2, -9 / 55).
Proof. unfold en_eta_2, en_eta_1, en_eta_0. exec. finish. Qed.

(** [eta[0]] is multiplied by [etaMultiplier] in every update. *)
Lemma updateEta_eta_0 iter aL1Prev this :
  ENDal.eta_0 (ENDal.updateEta iter aL1Prev this).1
  = ENDal.eta_0 this * ENDal.etaMultiplier this.
Proof.
  unfold ENDal.updateEta. cbn.
  destruct (ENDal.intercept this); [|reflexivity]. case_decide; reflexivity.
Qed.

(** Without weights, a dual vector whose sum is not positive gets the
    plain factor, whatever the absolute value of the sum. *)
Lemma updateEta_sum_not_positive iter aL1Prev this :
  ENDal.intercept this = true -> ENDal.useWeights this = false ->
  0 <= ENDal.eps this -> accu (ENDal.a this) <= 0 ->
  ENDal.eta_1 (ENDal.updateEta iter aL1Prev this).1
  = ENDal.eta_1 this * ENDal.etaMultiplier this.
Proof.
  intros Hi Hw He Ha. unfold ENDal.updateEta. cbn. rewrite Hi, Hw.
  case_decide as Hc; [|reflexivity]. destruct Hc as (_ & Hc & _).
  exfalso. unfold accu in Ha. lra.
Qed.

(** C6, at the failing input: the solver [en_eta] (intercept, at most two
    iterations, first step size 1, [alpha = 0], [lambda = 1]) on the one
    observation [x = 1], [y = 0], called from the coefficients [0; -1].
    Its second update of [eta] (after the second inner step, [iter = 2])
    finds the dual vector [-9/55], after [-1/5] at the first update: the
    absolute value 9/55 exceeds the tolerance and exceeds half of the
    previous absolute value 1/5.  [eta[0]] is multiplied by
    [etaMultiplier], and so is [eta[1]] (from 2 to 4), not by
    [10 * etaMultiplier]: the test is on the sum itself, which is
    negative. *)
Theorem updateEta_uses_signed_dual_sum :
  ENDal.computeCoefs solve_1x1 [0; -1] [0] en_eta
  = Some (ENDal.set_statusMessage "algorithm did not converge" (ENDal.set_status 1 en_eta_2),
          [26 / 55; -17 / 55], [-9 / 55]) /\
  ENDal.dal solve_1x1 (ENDal.set_useWeights false en_eta) 0 [-1]
  = Some (ENDal.set_statusMessage "algorithm did not converge" (ENDal.set_status 1 en_eta_2),
          26 / 55, [-17 / 55],
          [ENDal.mkDebug 0 (1 / 2) 0 1 1 1; ENDal.mkDebug 1 (1 / 5) 0 1 2 2;
           ENDal.mkDebug 2 (37 / 605) 0 1 4 4]) /\
  ENDal.dal_pass solve_1x1 0 1 en_eta_1 (ENDal.mkDal 1 0 (-1 / 5) [-3 / 5] (4 / 5))
  = Some (en_eta_2, ENDal.mkDal 2 0 (-9 / 55) [-17 / 55] (26 / 55),
          ENDal.mkDebug 1 (1 / 5) 0 1 2 2, false) /\
  ENDal.updateEta 2 (-1 / 5) (ENDal.set_a [-9 / 55] en_eta_1) = (en_eta_2, -9 / 55) /\
  Rabs (accu (ENDal.a en_eta_2)) > ENDal.eps en_eta_2 /\
  Rabs (accu (ENDal.a en_eta_2)) > 0.5 * Rabs (accu (ENDal.a en_eta_1)) /\
  norm1 (ENDal.a en_eta_2) > 0.5 * norm1 (ENDal.a en_eta_1) /\
  ENDal.eta_0 en_eta_2 = ENDal.eta_0 en_eta_1 * ENDal.etaMultiplier en_eta_1 /\
  ENDal.eta_1 en_eta_2 = ENDal.eta_1 en_eta_1 * ENDal.etaMultiplier en_eta_1 /\
  ENDal.eta_1 en_eta_2 <> ENDal.eta_1 en_eta_1 * (10 * ENDal.etaMultiplier en_eta_1).
Proof.
  split; [exact eta_run_computeCoefs|]. split; [exact eta_run|].
  split; [exact eta_run_pass_2|]. split; [exact eta_run_update_2|].
  unfold norm1, vabs. cbn. repeat split; closed_real.
Qed.
